(** * SSE streaming service: the four stream generators

    A shallow embedding of [backend/app/models.py], [backend/app/streaming.py]
    and the POST generator of [backend/app/main.py], followed by the
    properties of the streams they produce.

    Layout: the Python primitives the generators use ([str], [str.split],
    float arithmetic, [str.encode]); the payload records; the generator
    monad (yield, awaits on the request and on the event loop, exceptions);
    the four generators; the vocabulary of the properties; the loops
    against an arbitrary client; the properties of each stream. *)

From Stdlib Require Import ZArith List String Ascii Bool Lia.
From Stdlib Require Import DecimalString SpecFloat.
Import ListNotations.

Local Open Scope string_scope.
Local Open Scope list_scope.
Local Open Scope Z_scope.

(* ================================================================== *)
(** ** Python primitives *)
(* ================================================================== *)

Module Py.

(** A [str] is a sequence of code points; the embedding keeps the code
    points below U+0100, one [ascii] each. *)

Definition LF : string := String (ascii_of_nat 10) "".
Definition DQUOTE : string := String (ascii_of_nat 34) "".

(** [str(n)] for an [int]. *)
Definition str (n : Z) : string := NilZero.string_of_int (Z.to_int n).

(** [len(xs)] *)
Definition len {A : Type} (xs : list A) : Z := Z.of_nat (List.length xs).

(** [enumerate(xs)] *)
Fixpoint enumerate_from {A : Type} (i : Z) (xs : list A) : list (Z * A) :=
  match xs with
  | [] => []
  | x :: xs' => (i, x) :: enumerate_from (i + 1) xs'
  end.

Definition enumerate {A : Type} (xs : list A) : list (Z * A) :=
  enumerate_from 0 xs.

(** [range(n)] *)
Definition range (n : Z) : list Z :=
  List.map Z.of_nat (List.seq 0 (Z.to_nat n)).

(** [c.isspace()] on the code points below U+0100: TAB, LF, VT, FF, CR,
    FS, GS, RS, US, SPACE, NEL (U+0085) and NBSP (U+00A0). *)
Definition isspace (c : ascii) : bool :=
  let n := nat_of_ascii c in
  ((9 <=? n) && (n <=? 13))%nat || ((28 <=? n) && (n <=? 32))%nat
  || (n =? 133)%nat || (n =? 160)%nat.

(** [s.split()] with no separator: the maximal runs of non-whitespace
    characters, in order.  [cur] is the word being scanned, if any. *)
Fixpoint split_scan (s : string) (cur : option string) : list string :=
  match s with
  | EmptyString =>
      match cur with
      | Some w => [w]
      | None => []
      end
  | String c s' =>
      if isspace c then
        match cur with
        | Some w => w :: split_scan s' None
        | None => split_scan s' None
        end
      else
        match cur with
        | Some w => split_scan s' (Some (w ++ String c "")%string)
        | None => split_scan s' (Some (String c ""))
        end
  end.

Definition split (s : string) : list string := split_scan s None.

(** *** Floats: IEEE 754 binary64, as [float] is *)

Definition prec : Z := 53.
Definition emax : Z := 1024.

(** [float(n)], exact for |n| < 2^53. *)
Definition float_of_int (n : Z) : spec_float := binary_normalize prec emax n 0 false.

(** [a / b] on two ints (true division); the divisor is never 0 where the
    generators divide. *)
Definition truediv (a b : Z) : spec_float :=
  SFdiv prec emax (float_of_int a) (float_of_int b).

(** [x * n] for a float [x] and an int [n]. *)
Definition fmul_int (x : spec_float) (n : Z) : spec_float :=
  SFmul prec emax x (float_of_int n).

(** [int(x)]: truncation toward zero.  Python raises on an infinity or a
    NaN; the generators only convert quotients scaled by 100, and the
    embedding returns 0 there. *)
Definition int_of_float (x : spec_float) : Z :=
  match x with
  | S754_finite s m e =>
      let a := if 0 <=? e then Zpos m * 2 ^ e else Zpos m / 2 ^ (- e) in
      if s then - a else a
  | _ => 0
  end.

(** [round(x)] with no digits: the nearest integer, ties to even; same
    convention as [int_of_float] off the finite floats. *)
Definition round (x : spec_float) : Z :=
  match x with
  | S754_finite s m e =>
      let a :=
        if 0 <=? e then Zpos m * 2 ^ e
        else
          let d := 2 ^ (- e) in
          let q := Zpos m / d in
          let r := Zpos m mod d in
          match 2 * r ?= d with
          | Lt => q
          | Gt => q + 1
          | Eq => if Z.even q then q else q + 1
          end in
      if s then - a else a
  | _ => 0
  end.

(** [s.encode()]: UTF-8; a code point below U+0080 is one byte, one below
    U+0100 is two.  Python raises [UnicodeEncodeError] on a lone surrogate
    (U+D800..U+DFFF) only, which is not among the code points kept here:
    on these strings [encode] always returns. *)
Definition utf8_char (c : ascii) : list Byte.byte :=
  let n := N_of_ascii c in
  if (n <? 128)%N then [byte_of_ascii c]
  else [byte_of_ascii (ascii_of_N (192 + N.shiftr n 6));
        byte_of_ascii (ascii_of_N (128 + N.land n 63))].

Fixpoint encode (s : string) : list Byte.byte :=
  match s with
  | EmptyString => []
  | String c s' => utf8_char c ++ encode s'
  end.

End Py.

(* ================================================================== *)
(** ** Payload records ([models.py]) *)
(* ================================================================== *)

(** A [datetime], kept as its ISO 8601 rendering. *)
Record datetime : Type := { isoformat : string }.

Module StreamMessage.
Record t : Type := {
  id : string;
  event : string;
  data : string;
  timestamp : datetime
}.
End StreamMessage.

Module ChatMessage.
(** [user_id: Optional[str] = "anonymous"] *)
Record t : Type := {
  message : string;
  user_id : option string
}.

(** A field of the request body: absent, [null], or a string. *)
Inductive field : Type :=
| Omitted
| Null
| Given (s : string).

(** Building the model from the body: the default fills an absent field
    only. *)
Definition make (message : string) (user_id : field) : t :=
  {| message := message;
     user_id := match user_id with
                | Omitted => Some "anonymous"
                | Null => None
                | Given s => Some s
                end |}.
End ChatMessage.

Module ProgressUpdate.
Record t : Type := {
  task_id : string;
  progress : Z;
  status : string;
  message : option string
}.
End ProgressUpdate.

Module LLMStreamChunk.
Record t : Type := {
  content : string;
  chunk_id : Z;
  is_final : bool;
  metadata : option (list (string * Z))
}.
End LLMStreamChunk.

(** The [data] of an event is a JSON text: [model_dump_json()] of a record
    or [json.dumps] of a dict.  The embedding keeps the value encoded. *)
Inductive json : Type :=
| json_StreamMessage (m : StreamMessage.t)
| json_LLMStreamChunk (c : LLMStreamChunk.t)
| json_ProgressUpdate (u : ProgressUpdate.t)
| json_dict (kv : list (string * string)).

(** The dict a GET generator yields. *)
Module SSE.
Record t : Type := {
  event : string;
  id : string;
  data : json
}.
End SSE.

(** [f"{x}"] for an [Optional[str]]. *)
Definition format_optional (x : option string) : string :=
  match x with
  | Some s => s
  | None => "None"
  end.

(* ================================================================== *)
(** ** Generators: yields, awaits and exceptions *)
(* ================================================================== *)

(** Exceptions by what an [except] clause can tell apart:
    [asyncio.CancelledError] (a [BaseException] that is not an
    [Exception]), any other [BaseException] outside [Exception], and the
    instances of [Exception]; [msg] is [str(e)]. *)
Inductive exn : Type :=
| CancelledError
| BaseException (msg : string)
| Exception (msg : string).

Definition is_CancelledError (e : exn) : bool :=
  match e with
  | CancelledError => true
  | _ => false
  end.

Definition is_Exception (e : exn) : bool :=
  match e with
  | Exception _ => true
  | _ => false
  end.

Definition str_exn (e : exn) : string :=
  match e with
  | CancelledError => ""
  | BaseException msg => msg
  | Exception msg => msg
  end.

(** What an awaited call does: return or raise. *)
Inductive outcome (A : Type) : Type :=
| Returns (a : A)
| Raises (e : exn).

Arguments Returns {A} a.
Arguments Raises {A} e.

(** Everything outside the generator: the answers of the successive
    [await request.is_disconnected()], the outcomes of the successive
    [await asyncio.sleep(..)], and the successive clock readings
    [datetime.now()] and [int(time.time())]. *)
Record Env : Type := {
  env_is_disconnected : nat -> outcome bool;
  env_sleep : nat -> outcome unit;
  env_now : nat -> datetime;
  env_time : nat -> Z
}.

(** [StreamingService]: one field, set in [__init__]. *)
Module StreamingService.
Record t : Type := { active_connections : list nat }.
Definition __init__ : t := {| active_connections := [] |}.
End StreamingService.

(** The process-wide instance. *)
Definition streaming_service : StreamingService.t := StreamingService.__init__.

(** The state a running generator can reach: the shared service object,
    and how many times each part of the environment has been consulted. *)
Record World : Type := {
  service : StreamingService.t;
  polls : nat;
  sleeps : nat;
  now_reads : nat;
  time_reads : nat
}.

Definition tick_poll (w : World) : World :=
  {| service := service w; polls := S (polls w); sleeps := sleeps w;
     now_reads := now_reads w; time_reads := time_reads w |}.

Definition tick_sleep (w : World) : World :=
  {| service := service w; polls := polls w; sleeps := S (sleeps w);
     now_reads := now_reads w; time_reads := time_reads w |}.

Definition tick_now (w : World) : World :=
  {| service := service w; polls := polls w; sleeps := sleeps w;
     now_reads := S (now_reads w); time_reads := time_reads w |}.

Definition tick_time (w : World) : World :=
  {| service := service w; polls := polls w; sleeps := sleeps w;
     now_reads := now_reads w; time_reads := S (time_reads w) |}.

Definition start (sv : StreamingService.t) : World :=
  {| service := sv; polls := 0; sleeps := 0; now_reads := 0; time_reads := 0 |}.

Inductive result (A : Type) : Type :=
| Done (a : A)
| Raised (e : exn)
| OutOfFuel.

Arguments Done {A} a.
Arguments Raised {A} e.
Arguments OutOfFuel {A}.

(** A generator body yielding values of type [Y] and computing an [A]:
    the values yielded, in order, the world it leaves and how it ends. *)
Definition gen (Y A : Type) : Type :=
  Env -> World -> list Y * World * result A.

Section Gen.
Context {Y : Type}.

Definition ret {A : Type} (a : A) : gen Y A :=
  fun _ w => ([], w, Done a).

Definition bind {A B : Type} (m : gen Y A) (k : A -> gen Y B) : gen Y B :=
  fun env w =>
    match m env w with
    | (ys, w', Done a) =>
        match k a env w' with
        | (ys', w'', r) => (ys ++ ys', w'', r)
        end
    | (ys, w', Raised e) => (ys, w', Raised e)
    | (ys, w', OutOfFuel) => (ys, w', OutOfFuel)
    end.

Definition raise {A : Type} (e : exn) : gen Y A :=
  fun _ w => ([], w, Raised e).

Definition out_of_fuel {A : Type} : gen Y A :=
  fun _ w => ([], w, OutOfFuel).

(** [yield y] *)
Definition yield (y : Y) : gen Y unit :=
  fun _ w => ([y], w, Done tt).

Definition of_outcome {A : Type} (o : outcome A) : result A :=
  match o with
  | Returns a => Done a
  | Raises e => Raised e
  end.

(** [await request.is_disconnected()] *)
Definition is_disconnected : gen Y bool :=
  fun env w =>
    ([], tick_poll w, of_outcome (env_is_disconnected env (polls w))).

(** [await asyncio.sleep(ms / 1000)] *)
Definition sleep (ms : Z) : gen Y unit :=
  fun env w =>
    ([], tick_sleep w, of_outcome (env_sleep env (sleeps w))).

(** [datetime.now()] *)
Definition datetime_now : gen Y datetime :=
  fun env w =>
    ([], tick_now w, Done (env_now env (now_reads w))).

(** [int(time.time())] *)
Definition int_time_time : gen Y Z :=
  fun env w =>
    ([], tick_time w, Done (env_time env (time_reads w))).

(** [try: body  except <handles> as e: handler e] *)
Definition try_except (body : gen Y unit) (handles : exn -> bool)
    (handler : exn -> gen Y unit) : gen Y unit :=
  fun env w =>
    match body env w with
    | (ys, w', Raised e) =>
        if handles e then
          match handler e env w' with
          | (ys', w'', r) => (ys ++ ys', w'', r)
          end
        else (ys, w', Raised e)
    | other => other
    end.

(** How a loop body ends an iteration. *)
Inductive ctl (S : Type) : Type :=
| Continue (s : S)
| Break (s : S).

(** [for x in xs: body], with the local variables the body updates as
    [s]. *)
Fixpoint for_in {A S : Type} (xs : list A) (body : A -> S -> gen Y (ctl S))
    (s : S) : gen Y S :=
  match xs with
  | [] => ret s
  | x :: xs' =>
      bind (body x s) (fun c =>
        match c with
        | Continue _ s' => for_in xs' body s'
        | Break _ s' => ret s'
        end)
  end.

(** [while True: body], for at most [fuel] iterations. *)
Fixpoint while_True {S : Type} (fuel : nat) (body : S -> gen Y (ctl S))
    (s : S) : gen Y S :=
  match fuel with
  | O => out_of_fuel
  | Datatypes.S fuel' =>
      bind (body s) (fun c =>
        match c with
        | Continue _ s' => while_True fuel' body s'
        | Break _ s' => ret s'
        end)
  end.

End Gen.

Arguments Continue {S} s.
Arguments Break {S} s.

Notation "x <- m ;; k" := (bind m (fun x => k))
  (at level 61, m at next level, right associativity).
Notation "m ;; k" := (bind m (fun _ => k))
  (at level 61, right associativity).

(** The values a generator yields when it is iterated to its end. *)
Definition events {Y A : Type} (g : gen Y A) (env : Env) (w : World) : list Y :=
  fst (fst (g env w)).

Definition final_world {Y A : Type} (g : gen Y A) (env : Env) (w : World) : World :=
  snd (fst (g env w)).

Definition ending {Y A : Type} (g : gen Y A) (env : Env) (w : World) : result A :=
  snd (g env w).

(* ================================================================== *)
(** ** The stream generators ([streaming.py], [main.py]) *)
(* ================================================================== *)

Definition sse (event id : string) (data : json) : SSE.t :=
  {| SSE.event := event; SSE.id := id; SSE.data := data |}.

(** *** [StreamingService.stream_events] *)

(** The [StreamMessage] of one iteration; [datetime.now()] is read once
    for [data] and once for [timestamp]. *)
Definition stream_message (counter : Z) (now_data now_timestamp : datetime)
  : StreamMessage.t :=
  {| StreamMessage.id := Py.str counter;
     StreamMessage.event := "message";
     StreamMessage.data :=
       ("Server message #" ++ Py.str counter ++ " at " ++ isoformat now_data)%string;
     StreamMessage.timestamp := now_timestamp |}.

Definition stream_complete (counter : Z) : SSE.t :=
  sse "complete" (Py.str (counter + 1)) (json_dict [("message", "Stream completed")]).

(** The body of its [while True]. *)
Definition stream_events_body (counter : Z) : gen SSE.t (ctl Z) :=
  disconnected <- is_disconnected ;;
  if disconnected : bool then ret (Break counter)
  else
    let counter := counter + 1 in
    now_data <- datetime_now ;;
    now_timestamp <- datetime_now ;;
    let message := stream_message counter now_data now_timestamp in
    yield (sse "message" (Py.str counter) (json_StreamMessage message)) ;;
    sleep 2000 ;;
    if 10 <=? counter then
      yield (stream_complete counter) ;;
      ret (Break counter)
    else ret (Continue counter).

Definition stream_events (fuel : nat) : gen SSE.t unit :=
  try_except
    (let counter := 0 in
     _ <- while_True fuel stream_events_body counter ;;
     ret tt)
    is_CancelledError
    (fun _ => ret tt).

(** *** [StreamingService.simulate_llm_streaming] *)

(** The canned text, with the prompt between the quotes of its first
    sentence. *)
Definition full_response (prompt : string) : string :=
  ("This is a simulated LLM response to your prompt: " ++ Py.DQUOTE
   ++ prompt
   ++ Py.DQUOTE ++ "." ++ Py.LF
   ++ Py.LF
   ++ "This streaming response demonstrates how you can implement real-time text generation " ++ Py.LF
   ++ "similar to ChatGPT or other language models. Each chunk of text is sent as it becomes " ++ Py.LF
   ++ "available, providing a better user experience than waiting for the complete response." ++ Py.LF
   ++ Py.LF
   ++ "The streaming approach is particularly useful for:" ++ Py.LF
   ++ "1. Long-form content generation" ++ Py.LF
   ++ "2. Real-time chat applications  " ++ Py.LF
   ++ "3. Progressive content delivery" ++ Py.LF
   ++ "4. Better perceived performance" ++ Py.LF
   ++ Py.LF
   ++ "This completes the simulated streaming response.")%string.

Definition llm_chunk (words : list string) (i : Z) (word : string) (chunk_id : Z)
  : LLMStreamChunk.t :=
  let is_final := i =? Py.len words - 1 in
  {| LLMStreamChunk.content := (word ++ " ")%string;
     LLMStreamChunk.chunk_id := chunk_id;
     LLMStreamChunk.is_final := is_final;
     LLMStreamChunk.metadata :=
       Some [("progress",
              Py.round (Py.fmul_int (Py.truediv (i + 1) (Py.len words)) 100))] |}.

Definition llm_complete (chunk_id : Z) : SSE.t :=
  sse "llm_complete" (Py.str (chunk_id + 1))
    (json_dict [("message", "LLM response completed")]).

(** The body of its [for i, word in enumerate(words)]. *)
Definition simulate_llm_streaming_body (words : list string)
  : Z * string -> Z -> gen SSE.t (ctl Z) :=
  fun '(i, word) chunk_id =>
    disconnected <- is_disconnected ;;
    if disconnected : bool then ret (Break chunk_id)
    else
      let chunk_id := chunk_id + 1 in
      let chunk := llm_chunk words i word chunk_id in
      yield (sse "llm_chunk" (Py.str chunk_id) (json_LLMStreamChunk chunk)) ;;
      sleep 100 ;;
      ret (Continue chunk_id).

Definition simulate_llm_streaming (prompt : string) : gen SSE.t unit :=
  try_except
    (let words := Py.split (full_response prompt) in
     let chunk_id := 0 in
     chunk_id <- for_in (Py.enumerate words) (simulate_llm_streaming_body words) chunk_id ;;
     yield (llm_complete chunk_id))
    is_CancelledError
    (fun _ => ret tt).

(** *** [StreamingService.simulate_progress_task] *)

Definition total_steps : Z := 20.

Definition progress_update (task_name task_id : string) (step : Z) : ProgressUpdate.t :=
  let progress := Py.int_of_float (Py.fmul_int (Py.truediv step total_steps) 100) in
  let status := if step <? total_steps then "in_progress" else "completed" in
  {| ProgressUpdate.task_id := task_id;
     ProgressUpdate.progress := progress;
     ProgressUpdate.status := status;
     ProgressUpdate.message :=
       Some ("Processing " ++ task_name ++ " - Step " ++ Py.str step
               ++ "/" ++ Py.str total_steps)%string |}.

(** The body of its [for step in range(total_steps + 1)]. *)
Definition simulate_progress_task_body (task_name task_id : string)
  : Z -> unit -> gen SSE.t (ctl unit) :=
  fun step _ =>
    disconnected <- is_disconnected ;;
    if disconnected : bool then ret (Break tt)
    else
      let update := progress_update task_name task_id step in
      yield (sse "progress" (Py.str step) (json_ProgressUpdate update)) ;;
      sleep 500 ;;
      ret (Continue tt).

Definition simulate_progress_task (task_name : string) : gen SSE.t unit :=
  try_except
    (now <- int_time_time ;;
     let task_id := ("task_" ++ Py.str now)%string in
     _ <- for_in (Py.range (total_steps + 1))
            (simulate_progress_task_body task_name task_id) tt ;;
     ret tt)
    is_CancelledError
    (fun _ => ret tt).

(** *** [generate_response], the generator inside [post_stream] *)

(** The text of one chunk line. *)
Definition post_chunk (word : string) (i : Z) (user_id : option string) : string :=
  ("data: {'chunk': '" ++ word ++ " ', 'index': " ++ Py.str i
   ++ ", 'user_id': '" ++ format_optional user_id ++ "'}" ++ Py.LF ++ Py.LF)%string.

Definition post_final_chunk : string :=
  ("data: {'complete': true, 'message': 'Processing completed'}" ++ Py.LF ++ Py.LF)%string.

Definition post_error_chunk (e : exn) : string :=
  ("data: {'error': 'Processing failed: " ++ str_exn e ++ "'}" ++ Py.LF ++ Py.LF)%string.

Definition response_text (message : ChatMessage.t) : string :=
  ("Processing your message: '" ++ ChatMessage.message message ++ "'")%string.

(** The body of its [for i, word in enumerate(words)]. *)
Definition generate_response_body (message : ChatMessage.t)
  : Z * string -> unit -> gen (list Byte.byte) (ctl unit) :=
  fun '(i, word) _ =>
    disconnected <- is_disconnected ;;
    if disconnected : bool then ret (Break tt)
    else
      let chunk := post_chunk word i (ChatMessage.user_id message) in
      yield (Py.encode chunk) ;;
      sleep 200 ;;
      ret (Continue tt).

Definition generate_response (message : ChatMessage.t) : gen (list Byte.byte) unit :=
  try_except
    (let words := Py.split (response_text message) in
     _ <- for_in (Py.enumerate words) (generate_response_body message) tt ;;
     let final_chunk := post_final_chunk in
     yield (Py.encode final_chunk))
    is_Exception
    (fun e => let error_chunk := post_error_chunk e in yield (Py.encode error_chunk)).

(** *** The endpoints *)

(** [GET /stream] *)
Definition basic_stream (fuel : nat) : gen SSE.t unit := stream_events fuel.

(** [GET /stream/llm], with the default of the [prompt] query parameter. *)
Definition llm_stream (prompt : option string) : gen SSE.t unit :=
  simulate_llm_streaming
    match prompt with
    | Some p => p
    | None => "Tell me about FastAPI streaming"
    end.

(** [GET /stream/progress/{task_name}] *)
Definition progress_stream (task_name : string) : gen SSE.t unit :=
  simulate_progress_task task_name.

(** [POST /stream/post], the body already parsed. *)
Definition post_stream (message : string) (user_id : ChatMessage.field)
  : gen (list Byte.byte) unit :=
  generate_response (ChatMessage.make message user_id).

(* ================================================================== *)
(** ** Vocabulary of the properties *)
(* ================================================================== *)

(** *** The client, seen from a loop *)

(** The client stays connected and no await is interrupted. *)
Definition never_disconnected (env : Env) : Prop :=
  forall k, env_is_disconnected env k = Returns false.

Definition sleeps_return (env : Env) : Prop :=
  forall k, env_sleep env k = Returns tt.

(** The disconnect is detected by poll number [k] (from 0), all earlier
    polls having answered [False]. *)
Definition disconnect_detected_at (env : Env) (k : nat) : Prop :=
  (forall j, (j < k)%nat -> env_is_disconnected env j = Returns false)
  /\ env_is_disconnected env k = Returns true.

(** Two environments with the same client and event loop; the clocks may
    differ. *)
Definition same_client (env1 env2 : Env) : Prop :=
  (forall k, env_is_disconnected env1 k = env_is_disconnected env2 k)
  /\ (forall k, env_sleep env1 k = env_sleep env2 k).

(** How a loop stops. *)
Inductive stop : Type :=
| Completed
| Disconnected
| PollRaised (e : exn)
| SleepRaised (e : exn).

Record Fate : Type := {
  emitted : nat;
  polled : nat;
  stopped : stop
}.

(** What happens to a loop of [len] iterations, each polling the client,
    emitting one value and sleeping, when its first poll is poll [p] and its
    first sleep is sleep [q]. *)
Fixpoint fate (env : Env) (p q : nat) (len : nat) : Fate :=
  match len with
  | O => {| emitted := 0; polled := 0; stopped := Completed |}
  | S len' =>
      match env_is_disconnected env p with
      | Raises e => {| emitted := 0; polled := 1; stopped := PollRaised e |}
      | Returns true => {| emitted := 0; polled := 1; stopped := Disconnected |}
      | Returns false =>
          match env_sleep env q with
          | Raises e => {| emitted := 1; polled := 1; stopped := SleepRaised e |}
          | Returns _ =>
              let f := fate env (S p) (S q) len' in
              {| emitted := S (emitted f); polled := S (polled f);
                 stopped := stopped f |}
          end
      end
  end.

Definition result_of {A : Type} (st : stop) (a : A) : result A :=
  match st with
  | Completed => Done a
  | Disconnected => Done a
  | PollRaised e => Raised e
  | SleepRaised e => Raised e
  end.

Definition advance (np ns nn : nat) (w : World) : World :=
  {| service := service w;
     polls := (np + polls w)%nat;
     sleeps := (ns + sleeps w)%nat;
     now_reads := (nn + now_reads w)%nat;
     time_reads := time_reads w |}.

(** The shape the three [for] bodies share. *)
Definition poll_emit {Y S : Type} (y : Y) (ms : Z) (s s' : S) : gen Y (ctl S) :=
  disconnected <- is_disconnected ;;
  if disconnected : bool then ret (Break s)
  else yield y ;; sleep ms ;; ret (Continue s').

(** What a loop emits over [xs] when nothing stops it, [emit x s] being
    the value of the iteration on [x] with locals [s] and [next x s] the
    locals it leaves; and the locals the loop ends with. *)
Section Emits.
Context {Y A S : Type}.
Variable emit : A -> S -> Y.
Variable next : A -> S -> S.
Fixpoint emits (xs : list A) (s : S) : list Y :=
  match xs with
  | [] => []
  | x :: xs' => emit x s :: emits xs' (next x s)
  end.
Fixpoint after (xs : list A) (s : S) : S :=
  match xs with
  | [] => s
  | x :: xs' => after xs' (next x s)
  end.
End Emits.

(** *** The four loops against an arbitrary client *)

(** [a; a+1; ...], [n] integers. *)
Fixpoint Zseq (a : Z) (n : nat) : list Z :=
  match n with
  | O => []
  | S n' => a :: Zseq (a + 1) n'
  end.

(** The ["message"] events for counters [counter+1 .. counter+n], the clock
    being read from reading [r] on. *)
Fixpoint stream_messages (env : Env) (r : nat) (counter : Z) (n : nat) : list SSE.t :=
  match n with
  | O => []
  | S n' =>
      let counter := counter + 1 in
      sse "message" (Py.str counter)
        (json_StreamMessage
           (stream_message counter (env_now env r) (env_now env (S r))))
      :: stream_messages env (S (S r)) counter n'
  end.

(** How a generator ends when its [try] catches the exceptions [handles]
    and the handler itself ends normally. *)
Definition ending_of (handles : exn -> bool) (st : stop) : result unit :=
  match st with
  | Completed => Done tt
  | Disconnected => Done tt
  | PollRaised e => if handles e then Done tt else Raised e
  | SleepRaised e => if handles e then Done tt else Raised e
  end.

Definition llm_emit (words : list string) : Z * string -> Z -> SSE.t :=
  fun '(i, word) chunk_id =>
    sse "llm_chunk" (Py.str (chunk_id + 1))
      (json_LLMStreamChunk (llm_chunk words i word (chunk_id + 1))).

Definition llm_next : Z * string -> Z -> Z := fun _ chunk_id => chunk_id + 1.

Definition progress_emit (task_name task_id : string) : Z -> unit -> SSE.t :=
  fun step _ =>
    sse "progress" (Py.str step)
      (json_ProgressUpdate (progress_update task_name task_id step)).

Definition progress_event (task_name task_id : string) (step : Z) : SSE.t :=
  progress_emit task_name task_id step tt.

Definition post_line (message : ChatMessage.t) : Z * string -> list Byte.byte :=
  fun '(i, word) => Py.encode (post_chunk word i (ChatMessage.user_id message)).

(** *** Counting the words of a text *)

(** The positions of [s] where a word starts, [prev_space] telling whether
    the character before [s] is whitespace (or [s] starts the text). *)
Fixpoint word_starts (prev_space : bool) (s : string) : nat :=
  match s with
  | EmptyString => 0
  | String c s' =>
      if Py.isspace c then word_starts true s'
      else ((if prev_space then 1 else 0) + word_starts false s')%nat
  end.

(** The maximal runs of whitespace of [s] that start in [s]. *)
Fixpoint space_runs (prev_space : bool) (s : string) : nat :=
  match s with
  | EmptyString => 0
  | String c s' =>
      if Py.isspace c then ((if prev_space then 0 else 1) + space_runs true s')%nat
      else space_runs false s'
  end.

Fixpoint ends_space (prev_space : bool) (s : string) : bool :=
  match s with
  | EmptyString => prev_space
  | String c s' => ends_space (Py.isspace c) s'
  end.

(** The number of maximal runs of whitespace in a string. *)
Definition whitespace_runs (s : string) : nat := space_runs false s.

(** The text before the prompt and the text after it. *)
Definition response_head : string :=
  ("This is a simulated LLM response to your prompt: " ++ Py.DQUOTE)%string.

Definition response_tail : string :=
  Eval cbv in
    match index 0 (Py.DQUOTE ++ ".") (full_response "") with
    | Some n => substring n (String.length (full_response "") - n) (full_response "")
    | None => ""
    end.

(** *** Reading a stream *)

Definition has_event (name : string) (e : SSE.t) : bool :=
  String.eqb (SSE.event e) name.

(** The number of events called [name]. *)
Definition count_event (name : string) (evs : list SSE.t) : nat :=
  List.length (List.filter (has_event name) evs).

(** The chunks carried by the events of a stream. *)
Definition llm_chunks (evs : list SSE.t) : list LLMStreamChunk.t :=
  List.flat_map
    (fun e => match SSE.data e with
              | json_LLMStreamChunk c => [c]
              | _ => []
              end) evs.

(** The progress updates carried by the events of a stream. *)
Definition progress_updates (evs : list SSE.t) : list ProgressUpdate.t :=
  List.flat_map
    (fun e => match SSE.data e with
              | json_ProgressUpdate u => [u]
              | _ => []
              end) evs.

Fixpoint nondecreasing (xs : list Z) : bool :=
  match xs with
  | x :: ((y :: _) as rest) => (x <=? y) && nondecreasing rest
  | _ => true
  end.

Definition count_name (name : string) (names : list string) : nat :=
  List.length (List.filter (fun x => String.eqb x name) names).

(** *** Sample clients *)

(** A client that stays connected, on a clock that starts at [t0] seconds. *)
Definition patient_client (t0 : Z) : Env :=
  {| env_is_disconnected := fun _ => Returns false;
     env_sleep := fun _ => Returns tt;
     env_now := fun k => {| isoformat := Py.str (t0 + Z.of_nat k) |};
     env_time := fun k => t0 + Z.of_nat k |}.

(** A client whose disconnect is seen by poll [k] and every later one. *)
Definition leaving_client (k : nat) : Env :=
  {| env_is_disconnected := fun n => Returns (k <=? n)%nat;
     env_sleep := fun _ => Returns tt;
     env_now := fun n => {| isoformat := Py.str (Z.of_nat n) |};
     env_time := fun n => Z.of_nat n |}.

(** A client during whose stream sleep [k] is interrupted by [e]. *)
Definition interrupted_client (k : nat) (e : exn) : Env :=
  {| env_is_disconnected := fun _ => Returns false;
     env_sleep := fun n => if (n =? k)%nat then Raises e else Returns tt;
     env_now := fun n => {| isoformat := Py.str (Z.of_nat n) |};
     env_time := fun n => Z.of_nat n |}.

(** *** The POST stream *)

(** The exception [e] is the first thing to go wrong, raised by poll [k]
    or, with [at_sleep], by sleep [k]. *)
Definition raised_at (env : Env) (k : nat) (at_sleep : bool) (e : exn) : Prop :=
  (forall j, (j < k)%nat ->
     env_is_disconnected env j = Returns false /\ env_sleep env j = Returns tt)
  /\ if at_sleep
     then env_is_disconnected env k = Returns false /\ env_sleep env k = Raises e
     else env_is_disconnected env k = Raises e.

(** *** Two invocations of one endpoint *)

(** An event with the fields read from the wall clock blanked: the [data]
    and [timestamp] of a [StreamMessage], the [task_id] of a
    [ProgressUpdate]. *)
Definition shape (e : SSE.t) : SSE.t :=
  sse (SSE.event e) (SSE.id e)
    match SSE.data e with
    | json_StreamMessage m =>
        json_StreamMessage
          {| StreamMessage.id := StreamMessage.id m;
             StreamMessage.event := StreamMessage.event m;
             StreamMessage.data := "";
             StreamMessage.timestamp := {| isoformat := "" |} |}
    | json_ProgressUpdate u =>
        json_ProgressUpdate
          {| ProgressUpdate.task_id := "";
             ProgressUpdate.progress := ProgressUpdate.progress u;
             ProgressUpdate.status := ProgressUpdate.status u;
             ProgressUpdate.message := ProgressUpdate.message u |}
    | d => d
    end.

(** *** Words and texts *)

(** No character of [s] is whitespace. *)
Fixpoint no_space (s : string) : bool :=
  match s with
  | EmptyString => true
  | String c s' => negb (Py.isspace c) && no_space s'
  end.

(** A word: not empty, and without whitespace. *)
Definition is_word (s : string) : bool :=
  match s with
  | EmptyString => false
  | String _ _ => no_space s
  end.

(** The strings of [xs] put one after the other. *)
Fixpoint join (xs : list string) : string :=
  match xs with
  | [] => EmptyString
  | x :: xs' => (x ++ join xs')%string
  end.

(** *** Envelope and payload *)

(** The envelope of an event agrees with the record it carries: the id
    and name of a [StreamMessage], the sequence number of a chunk, the step
    a progress message mentions. *)
Definition envelope_matches (task_name : string) (e : SSE.t) : Prop :=
  match SSE.data e with
  | json_StreamMessage m =>
      StreamMessage.id m = SSE.id e /\ StreamMessage.event m = SSE.event e
  | json_LLMStreamChunk c => Py.str (LLMStreamChunk.chunk_id c) = SSE.id e
  | json_ProgressUpdate u =>
      ProgressUpdate.message u
      = Some ("Processing " ++ task_name ++ " - Step " ++ SSE.id e ++ "/20")%string
  | json_dict _ => True
  end.

(** *** The progress record *)

(** What a progress event must satisfy: it carries a [ProgressUpdate]
    whose progress lies in 0..100, whose status is "completed" on step 20
    and "in_progress" on every other step, and whose progress is 100
    exactly when the status is "completed". *)
Definition progress_ok (e : SSE.t) : bool :=
  match SSE.data e with
  | json_ProgressUpdate u =>
      let completed := String.eqb (ProgressUpdate.status u) "completed" in
      (0 <=? ProgressUpdate.progress u) && (ProgressUpdate.progress u <=? 100)
      && Bool.eqb completed (String.eqb (SSE.id e) "20")
      && Bool.eqb completed (ProgressUpdate.progress u =? 100)
      && (completed || String.eqb (ProgressUpdate.status u) "in_progress")
  | _ => false
  end.

(* ================================================================== *)
(** ** The client, seen from a loop *)
(* ================================================================== *)

Lemma advance_0 w : advance 0 0 0 w = w.
Proof. destruct w; reflexivity. Qed.

Lemma advance_poll w : advance 1 0 0 w = tick_poll w.
Proof. destruct w; reflexivity. Qed.

Lemma advance_poll_sleep w : advance 1 1 0 w = tick_sleep (tick_poll w).
Proof. destruct w; reflexivity. Qed.

Lemma advance_step np ns w :
  advance np ns 0 (tick_sleep (tick_poll w)) = advance (S np) (S ns) 0 w.
Proof.
  unfold advance, tick_sleep, tick_poll; simpl.
  f_equal; lia.
Qed.

Lemma service_advance np ns nn w : service (advance np ns nn w) = service w.
Proof. reflexivity. Qed.

Lemma poll_emit_run {Y S : Type} (y : Y) (ms : Z) (s s' : S) env w :
  poll_emit y ms s s' env w =
  match env_is_disconnected env (polls w) with
  | Raises e => ([], tick_poll w, Raised e)
  | Returns true => ([], tick_poll w, Done (Break s))
  | Returns false =>
      match env_sleep env (sleeps w) with
      | Raises e => ([y], tick_sleep (tick_poll w), Raised e)
      | Returns _ => ([y], tick_sleep (tick_poll w), Done (Continue s'))
      end
  end.
Proof.
  unfold poll_emit, bind, is_disconnected, yield, sleep, ret, of_outcome.
  destruct (env_is_disconnected env (polls w)) as [[|]|e]; simpl; try reflexivity.
  destruct (env_sleep env (sleeps w)) as [[]|e]; reflexivity.
Qed.

Section PollLoop.
Context {Y A S : Type}.
Variable emit : A -> S -> Y.
Variable next : A -> S -> S.
Variable ms : Z.
Variable body : A -> S -> gen Y (ctl S).
Hypothesis body_shape :
  forall x s, body x s = poll_emit (emit x s) ms s (next x s).

Lemma for_in_fate env :
  forall xs s w,
    let f := fate env (polls w) (sleeps w) (List.length xs) in
    for_in xs body s env w =
    (emits emit next (firstn (emitted f) xs) s,
     advance (polled f) (emitted f) 0 w,
     result_of (stopped f) (after next (firstn (emitted f) xs) s)).
Proof.
  induction xs as [|x xs IH]; intros s w; cbn zeta.
  - simpl. unfold ret. now rewrite advance_0.
  - cbn [for_in List.length fate]. unfold bind at 1.
    rewrite body_shape, poll_emit_run.
    destruct (env_is_disconnected env (polls w)) as [[|]|e].
    + reflexivity.
    + destruct (env_sleep env (sleeps w)) as [[]|e].
      * specialize (IH (next x s) (tick_sleep (tick_poll w))).
        cbn zeta in IH. simpl polls in IH. simpl sleeps in IH.
        rewrite IH, advance_step. reflexivity.
      * reflexivity.
    + reflexivity.
Qed.

Lemma emits_length xs :
  forall s, List.length (emits emit next xs s) = List.length xs.
Proof. induction xs; intros; simpl; auto. Qed.

End PollLoop.

(** *** Properties of [fate] *)

Lemma fate_emitted_le env len : forall p q, (emitted (fate env p q len) <= len)%nat.
Proof.
  induction len; intros p q; simpl; auto.
  destruct (env_is_disconnected env p) as [[|]|e]; simpl; try lia.
  destruct (env_sleep env q) as [[]|e]; simpl; try lia.
  specialize (IHlen (S p) (S q)). lia.
Qed.

Lemma fate_undisturbed env len :
  never_disconnected env -> sleeps_return env ->
  forall p q, fate env p q len = {| emitted := len; polled := len; stopped := Completed |}.
Proof.
  intros Hc Hs. induction len; intros p q; simpl; auto.
  now rewrite Hc, Hs, IHlen.
Qed.

Lemma fate_same_client env1 env2 len :
  same_client env1 env2 -> forall p q, fate env1 p q len = fate env2 p q len.
Proof.
  intros [Hp Hs]. induction len; intros p q; simpl; auto.
  now rewrite Hp, Hs, IHlen.
Qed.

(** Detection at poll [p + k]: [k] values were emitted before it. *)
Lemma fate_disconnect env len : forall k p q,
  (k < len)%nat ->
  (forall j, (j < k)%nat -> env_is_disconnected env (p + j) = Returns false) ->
  env_is_disconnected env (p + k) = Returns true ->
  (forall j, env_sleep env j = Returns tt) ->
  fate env p q len = {| emitted := k; polled := S k; stopped := Disconnected |}.
Proof.
  induction len; intros k p q Hk Hbefore Hat Hs; [lia|].
  simpl. destruct k as [|k].
  - rewrite Nat.add_0_r in Hat. now rewrite Hat.
  - pose proof (Hbefore 0%nat ltac:(lia)) as H0.
    rewrite Nat.add_0_r in H0. rewrite H0, Hs.
    rewrite (IHlen k (S p) (S q)); auto; try lia.
    + intros j Hj. replace (S p + j)%nat with (p + S j)%nat by lia.
      apply Hbefore. lia.
    + now replace (S p + k)%nat with (p + S k)%nat by lia.
Qed.

(** A completed loop has run every iteration. *)
Lemma fate_completed env len : forall p q,
  stopped (fate env p q len) = Completed -> emitted (fate env p q len) = len.
Proof.
  induction len; intros p q; simpl; auto.
  destruct (env_is_disconnected env p) as [[|]|e]; simpl; try discriminate.
  destruct (env_sleep env q) as [[]|e]; simpl; try discriminate.
  intros H. now rewrite IHlen.
Qed.

(* ================================================================== *)
(** ** The four loops against an arbitrary client *)
(* ================================================================== *)

Arguments Py.str : simpl never.
Arguments Py.round : simpl never.
Arguments Py.int_of_float : simpl never.
Arguments Py.truediv : simpl never.
Arguments Py.fmul_int : simpl never.
Arguments Py.encode : simpl never.
Arguments Py.split : simpl never.

Lemma Zseq_length n : forall a, List.length (Zseq a n) = n.
Proof. induction n; intros; simpl; auto. Qed.

Lemma enumerate_from_length {A : Type} (xs : list A) :
  forall i, List.length (Py.enumerate_from i xs) = List.length xs.
Proof. induction xs; intros; simpl; auto. Qed.

Lemma enumerate_from_firstn {A : Type} n : forall (xs : list A) i,
  firstn n (Py.enumerate_from i xs) = Py.enumerate_from i (firstn n xs).
Proof.
  induction n; intros xs i; simpl; auto.
  destruct xs; simpl; auto. now rewrite IHn.
Qed.

(** *** The counter stream *)

Lemma stream_events_body_run counter env w :
  stream_events_body counter env w =
  match env_is_disconnected env (polls w) with
  | Raises e => ([], tick_poll w, Raised e)
  | Returns true => ([], tick_poll w, Done (Break counter))
  | Returns false =>
      let msgs := stream_messages env (now_reads w) counter 1 in
      match env_sleep env (sleeps w) with
      | Raises e => (msgs, advance 1 1 2 w, Raised e)
      | Returns _ =>
          if 10 <=? counter + 1
          then (msgs ++ [stream_complete (counter + 1)], advance 1 1 2 w,
                Done (Break (counter + 1)))
          else (msgs, advance 1 1 2 w, Done (Continue (counter + 1)))
      end
  end.
Proof.
  unfold stream_events_body, bind, is_disconnected, datetime_now, yield, sleep,
    ret, of_outcome.
  destruct (env_is_disconnected env (polls w)) as [[|]|e]; simpl; try reflexivity.
  destruct (env_sleep env (sleeps w)) as [[]|e]; simpl; try reflexivity.
  destruct (10 <=? counter + 1); reflexivity.
Qed.

Lemma advance_counter_step np ns nn w :
  advance np ns nn (advance 1 1 2 w) = advance (S np) (S ns) (S (S nn)) w.
Proof. unfold advance; simpl. f_equal; lia. Qed.

(** The [while True] of the counter stream, from a counter with [m >= 1]
    iterations left before 10. *)
Lemma stream_events_loop env :
  forall m fuel counter w,
    Z.of_nat m = 10 - counter -> (1 <= m)%nat -> (m <= fuel)%nat ->
    let f := fate env (polls w) (sleeps w) m in
    while_True fuel stream_events_body counter env w =
    (stream_messages env (now_reads w) counter (emitted f)
       ++ match stopped f with
          | Completed => [stream_complete (counter + Z.of_nat (emitted f))]
          | _ => []
          end,
     advance (polled f) (emitted f) (2 * emitted f) w,
     result_of (stopped f) (counter + Z.of_nat (emitted f))).
Proof.
  induction m as [|m IH]; intros fuel counter w Hm H1 Hfuel; [lia|].
  destruct fuel as [|fuel]; [lia|].
  cbn zeta. cbn [while_True fate]. unfold bind at 1.
  rewrite stream_events_body_run.
  destruct (env_is_disconnected env (polls w)) as [[|]|e].
  - cbn. rewrite Z.add_0_r. reflexivity.
  - destruct (env_sleep env (sleeps w)) as [[]|e].
    + destruct (Z.leb_spec 10 (counter + 1)) as [Hle|Hlt].
      * assert (m = 0%nat) by lia. subst m. cbn.
        reflexivity.
      * assert (1 <= m)%nat by lia.
        cbn zeta iota beta.
        specialize (IH fuel (counter + 1) (advance 1 1 2 w)
                      ltac:(lia) ltac:(lia) ltac:(lia)).
        cbn zeta in IH. simpl polls in IH. simpl sleeps in IH. simpl now_reads in IH.
        rewrite IH, advance_counter_step.
        cbn [emitted polled stopped stream_messages app].
        replace (counter + 1 + Z.of_nat (emitted (fate env (S (polls w)) (S (sleeps w)) m)))
          with (counter + Z.of_nat (S (emitted (fate env (S (polls w)) (S (sleeps w)) m))))
          by lia.
        replace (2 * S (emitted (fate env (S (polls w)) (S (sleeps w)) m)))%nat
          with (S (S (2 * emitted (fate env (S (polls w)) (S (sleeps w)) m))))%nat
          by lia.
        reflexivity.
    + cbn. reflexivity.
  - cbn. reflexivity.
Qed.

(** [stream_events] against any client, with fuel for its ten iterations. *)
Lemma stream_events_run env fuel w :
  (10 <= fuel)%nat ->
  let f := fate env (polls w) (sleeps w) 10 in
  stream_events fuel env w =
  (stream_messages env (now_reads w) 0 (emitted f)
     ++ match stopped f with
        | Completed => [stream_complete (Z.of_nat (emitted f))]
        | _ => []
        end,
   advance (polled f) (emitted f) (2 * emitted f) w,
   ending_of is_CancelledError (stopped f)).
Proof.
  intros Hfuel f. unfold stream_events, try_except, bind.
  rewrite (stream_events_loop env 10 fuel 0 w) by (try reflexivity; lia).
  fold f. clearbody f. rewrite Z.add_0_l.
  destruct (stopped f) as [| |e|e]; cbn; rewrite ?app_nil_r;
    [reflexivity | reflexivity | | ];
    destruct e; cbn; rewrite ?app_nil_r; reflexivity.
Qed.

(** *** The text-generation stream *)

Lemma llm_body_shape words x s :
  simulate_llm_streaming_body words x s =
  poll_emit (llm_emit words x s) 100 s (llm_next x s).
Proof. destruct x; reflexivity. Qed.

Lemma after_llm_next xs : forall c,
  after llm_next xs c = c + Z.of_nat (List.length xs).
Proof.
  induction xs as [|x xs IH]; intros c; simpl after; simpl List.length.
  - lia.
  - rewrite IH. unfold llm_next. lia.
Qed.

Lemma firstn_length_le {A : Type} n (xs : list A) :
  (n <= List.length xs)%nat -> List.length (firstn n xs) = n.
Proof. intros H. rewrite List.length_firstn. lia. Qed.

Lemma simulate_llm_streaming_run prompt env w :
  let words := Py.split (full_response prompt) in
  let f := fate env (polls w) (sleeps w) (List.length words) in
  simulate_llm_streaming prompt env w =
  (emits (llm_emit words) llm_next (Py.enumerate (firstn (emitted f) words)) 0
     ++ match stopped f with
        | Completed => [llm_complete (Z.of_nat (emitted f))]
        | Disconnected => [llm_complete (Z.of_nat (emitted f))]
        | _ => []
        end,
   advance (polled f) (emitted f) 0 w,
   ending_of is_CancelledError (stopped f)).
Proof.
  intros words f. unfold simulate_llm_streaming, try_except. fold words.
  cbn zeta. unfold bind at 1.
  rewrite (for_in_fate (llm_emit words) llm_next 100 _ (llm_body_shape words)).
  cbn zeta. unfold Py.enumerate.
  rewrite !enumerate_from_length. fold f.
  rewrite !enumerate_from_firstn, after_llm_next, enumerate_from_length.
  rewrite firstn_length_le by apply fate_emitted_le.
  rewrite Z.add_0_l. clearbody f words.
  destruct (stopped f) as [| |e|e]; cbn; rewrite ?app_nil_r;
    [reflexivity | reflexivity | | ];
    destruct e; cbn; rewrite ?app_nil_r; reflexivity.
Qed.

(** *** The progress stream *)

Lemma progress_body_shape task_name task_id x s :
  simulate_progress_task_body task_name task_id x s =
  poll_emit (progress_emit task_name task_id x s) 500 s tt.
Proof. destruct s; reflexivity. Qed.

Lemma emits_map {Y A S : Type} (g : A -> Y) (next : A -> S -> S) xs :
  forall s, emits (fun x _ => g x) next xs s = List.map g xs.
Proof. induction xs; intros; simpl; auto. now rewrite IHxs. Qed.

Lemma simulate_progress_task_run task_name env w :
  let task_id := ("task_" ++ Py.str (env_time env (time_reads w)))%string in
  let f := fate env (polls w) (sleeps w) 21 in
  simulate_progress_task task_name env w =
  (List.map (progress_event task_name task_id)
     (firstn (emitted f) (Py.range (total_steps + 1))),
   advance (polled f) (emitted f) 0 (tick_time w),
   ending_of is_CancelledError (stopped f)).
Proof.
  intros task_id f. unfold simulate_progress_task, try_except.
  unfold bind at 1. unfold int_time_time at 1. cbn iota beta zeta.
  unfold bind at 1.
  rewrite (for_in_fate (progress_emit task_name task_id) (fun _ _ => tt) 500 _
             (progress_body_shape task_name task_id)).
  cbn zeta. simpl polls. simpl sleeps.
  change (List.length (Py.range (total_steps + 1))) with 21%nat. fold f. fold task_id.
  change (progress_emit task_name task_id)
    with (fun (x : Z) (_ : unit) => progress_event task_name task_id x).
  rewrite emits_map. clearbody f task_id.
  destruct (stopped f) as [| |e|e];
    unfold result_of, ending_of, ret; cbv beta iota; rewrite ?app_nil_r;
    [reflexivity | reflexivity | | ];
    destruct e; unfold is_CancelledError; cbv beta iota; rewrite ?app_nil_r;
    reflexivity.
Qed.

(** *** The POST stream *)

Lemma post_body_shape message x s :
  generate_response_body message x s =
  poll_emit (post_line message x) 200 s tt.
Proof. destruct x, s; reflexivity. Qed.

Lemma generate_response_run message env w :
  let words := Py.split (response_text message) in
  let f := fate env (polls w) (sleeps w) (List.length words) in
  generate_response message env w =
  (List.map (post_line message) (Py.enumerate (firstn (emitted f) words))
     ++ match stopped f with
        | Completed => [Py.encode post_final_chunk]
        | Disconnected => [Py.encode post_final_chunk]
        | PollRaised e => if is_Exception e then [Py.encode (post_error_chunk e)] else []
        | SleepRaised e => if is_Exception e then [Py.encode (post_error_chunk e)] else []
        end,
   advance (polled f) (emitted f) 0 w,
   ending_of is_Exception (stopped f)).
Proof.
  intros words f. unfold generate_response, try_except. fold words.
  cbn zeta. unfold bind at 1.
  rewrite (for_in_fate (fun x (_ : unit) => post_line message x) (fun _ _ => tt) 200 _
             (post_body_shape message)).
  cbn zeta. unfold Py.enumerate.
  rewrite !enumerate_from_length. fold f.
  rewrite !enumerate_from_firstn, emits_map. clearbody f words.
  destruct (stopped f) as [| |e|e]; cbn; rewrite ?app_nil_r;
    [reflexivity | reflexivity | | ];
    destruct e; cbn; rewrite ?app_nil_r; reflexivity.
Qed.

(* ================================================================== *)
(** ** Counting the words of a text *)
(* ================================================================== *)

Lemma split_scan_length s : forall cur,
  List.length (Py.split_scan s cur) =
  match cur with
  | Some _ => S (word_starts false s)
  | None => word_starts true s
  end.
Proof.
  induction s as [|c s IH]; intros cur; simpl.
  - destruct cur; reflexivity.
  - destruct (Py.isspace c), cur; simpl; rewrite IH; reflexivity.
Qed.

Lemma split_length s : List.length (Py.split s) = word_starts true s.
Proof. unfold Py.split. apply split_scan_length. Qed.

Lemma word_starts_app s1 s2 : forall b,
  word_starts b (s1 ++ s2)%string =
  (word_starts b s1 + word_starts (ends_space b s1) s2)%nat.
Proof.
  induction s1 as [|c s1 IH]; intros b; simpl; auto.
  destruct (Py.isspace c); rewrite IH; lia.
Qed.

Lemma word_starts_space_runs s : forall b,
  (word_starts b s + (if ends_space b s then 1 else 0)
   = space_runs b s + (if b then 1 else 0))%nat.
Proof.
  induction s as [|c s IH]; intros b; simpl; auto.
  destruct (Py.isspace c).
  - specialize (IH true). simpl in IH. destruct b; lia.
  - specialize (IH false). simpl in IH. destruct b; lia.
Qed.

Lemma full_response_parts prompt :
  full_response prompt = (response_head ++ prompt ++ response_tail)%string.
Proof.
  vm_compute. reflexivity.
Qed.

(** The number of words of the text: 78, and one more for each run of
    whitespace in the prompt. *)
Lemma full_response_words prompt :
  List.length (Py.split (full_response prompt)) = (78 + whitespace_runs prompt)%nat.
Proof.
  rewrite split_length, full_response_parts, !word_starts_app.
  change (ends_space true response_head) with false.
  change (word_starts true response_head) with 10%nat.
  pose proof (word_starts_space_runs prompt false) as H.
  unfold whitespace_runs.
  destruct (ends_space false prompt).
  - change (word_starts true response_tail) with 69%nat. lia.
  - change (word_starts false response_tail) with 68%nat. lia.
Qed.

(* ================================================================== *)
(** ** Reading a stream *)
(* ================================================================== *)

Lemma count_event_names name evs :
  count_event name evs = count_name name (List.map SSE.event evs).
Proof.
  unfold count_event, count_name, has_event.
  induction evs as [|e evs IH]; simpl; auto.
  destruct (String.eqb (SSE.event e) name); simpl; auto.
Qed.

Lemma count_name_app name xs ys :
  count_name name (xs ++ ys) = (count_name name xs + count_name name ys)%nat.
Proof. unfold count_name. now rewrite List.filter_app, List.length_app. Qed.

Lemma count_name_repeat name x n :
  count_name name (repeat x n) = if String.eqb x name then n else 0%nat.
Proof.
  unfold count_name. induction n; simpl.
  - now destruct (String.eqb x name).
  - destruct (String.eqb x name) eqn:E; simpl; auto.
Qed.

Lemma llm_chunks_app xs ys : llm_chunks (xs ++ ys) = llm_chunks xs ++ llm_chunks ys.
Proof. unfold llm_chunks. apply List.flat_map_app. Qed.

Section LLMChunks.
Variable words : list string.

Lemma llm_emits_events ws : forall i c,
  List.map SSE.event
    (emits (llm_emit words) llm_next (Py.enumerate_from i ws) c)
  = repeat "llm_chunk" (List.length ws).
Proof.
  induction ws as [|x ws IH]; intros i c; simpl; auto.
  now rewrite IH.
Qed.

Lemma llm_emits_ids ws : forall i c,
  List.map SSE.id
    (emits (llm_emit words) llm_next (Py.enumerate_from i ws) c)
  = List.map Py.str (Zseq (c + 1) (List.length ws)).
Proof.
  induction ws as [|x ws IH]; intros i c; simpl; auto.
  unfold llm_next at 1. now rewrite IH.
Qed.

Lemma llm_emits_chunk_ids ws : forall i c,
  List.map LLMStreamChunk.chunk_id
    (llm_chunks (emits (llm_emit words) llm_next (Py.enumerate_from i ws) c))
  = Zseq (c + 1) (List.length ws).
Proof.
  induction ws as [|x ws IH]; intros i c; simpl; auto.
  unfold llm_next at 1. now rewrite IH.
Qed.

Lemma llm_emits_is_final ws : forall i c,
  List.map LLMStreamChunk.is_final
    (llm_chunks (emits (llm_emit words) llm_next (Py.enumerate_from i ws) c))
  = List.map (fun j => j =? Py.len words - 1) (Zseq i (List.length ws)).
Proof.
  induction ws as [|x ws IH]; intros i c; simpl; auto.
  now rewrite IH.
Qed.

Lemma llm_emits_all_chunks ws : forall i c,
  List.length
    (llm_chunks (emits (llm_emit words) llm_next (Py.enumerate_from i ws) c))
  = List.length ws.
Proof.
  intros i c.
  rewrite <- (List.length_map LLMStreamChunk.chunk_id), llm_emits_chunk_ids.
  apply Zseq_length.
Qed.
End LLMChunks.

Lemma final_flags n : forall a,
  List.map (fun j => j =? a + Z.of_nat n) (Zseq a (S n)) = repeat false n ++ [true].
Proof.
  induction n as [|n IH]; intros a.
  - simpl. now rewrite Z.add_0_r, Z.eqb_refl.
  - cbn [Zseq List.map repeat app].
    replace (a =? a + Z.of_nat (S n)) with false by (symmetry; apply Z.eqb_neq; lia).
    f_equal. specialize (IH (a + 1)). cbn [Zseq List.map] in IH.
    rewrite <- IH.
    replace (a + 1 + Z.of_nat n) with (a + Z.of_nat (S n)) by lia.
    reflexivity.
Qed.

(* ================================================================== *)
(** ** Sample clients *)
(* ================================================================== *)

Lemma patient_never_disconnected t0 : never_disconnected (patient_client t0).
Proof. intros k. reflexivity. Qed.

Lemma patient_sleeps_return t0 : sleeps_return (patient_client t0).
Proof. intros k. reflexivity. Qed.

Lemma leaving_sleeps_return k : sleeps_return (leaving_client k).
Proof. intros n. reflexivity. Qed.

Lemma leaving_detected k : disconnect_detected_at (leaving_client k) k.
Proof.
  split.
  - intros j Hj. simpl. destruct (Nat.leb_spec k j); [lia | reflexivity].
  - simpl. now rewrite Nat.leb_refl.
Qed.

(* ================================================================== *)
(** ** The text-generation stream, run to its end *)
(* ================================================================== *)

(** C2.  When the client never disconnects, the text-generation stream
    emits one ["llm_chunk"] per word of the built response text and then
    one ["llm_complete"]; the chunk ids are 1..N; [is_final] is false on
    all chunks but the last, where it is true. *)
Theorem llm_stream_complete_run env prompt sv :
  never_disconnected env -> sleeps_return env ->
  let N := List.length (Py.split (full_response prompt)) in
  let evs := events (simulate_llm_streaming prompt) env (start sv) in
  List.map SSE.event evs = repeat "llm_chunk" N ++ ["llm_complete"]
  /\ count_event "llm_chunk" evs = N
  /\ count_event "llm_complete" evs = 1%nat
  /\ List.map LLMStreamChunk.chunk_id (llm_chunks evs) = Zseq 1 N
  /\ List.map LLMStreamChunk.is_final (llm_chunks evs) = repeat false (N - 1) ++ [true]
  /\ ending (simulate_llm_streaming prompt) env (start sv) = Done tt.
Proof.
  intros Hc Hs N evs.
  assert (Hnames : List.map SSE.event evs = repeat "llm_chunk" N ++ ["llm_complete"]).
  { unfold evs, events. rewrite simulate_llm_streaming_run.
    rewrite (fate_undisturbed env _ Hc Hs). cbn [fst emitted stopped].
    rewrite List.firstn_all, List.map_app. unfold Py.enumerate.
    rewrite llm_emits_events. reflexivity. }
  assert (Hchunks : llm_chunks evs
            = llm_chunks (emits (llm_emit (Py.split (full_response prompt))) llm_next
                            (Py.enumerate (Py.split (full_response prompt))) 0)).
  { unfold evs, events. rewrite simulate_llm_streaming_run.
    rewrite (fate_undisturbed env _ Hc Hs). cbn [fst emitted stopped].
    rewrite List.firstn_all, llm_chunks_app. cbn. now rewrite app_nil_r. }
  repeat split.
  - exact Hnames.
  - rewrite count_event_names, Hnames, count_name_app, count_name_repeat. cbn. lia.
  - rewrite count_event_names, Hnames, count_name_app, count_name_repeat. reflexivity.
  - rewrite Hchunks. unfold Py.enumerate. rewrite llm_emits_chunk_ids. reflexivity.
  - rewrite Hchunks. unfold Py.enumerate. rewrite llm_emits_is_final.
    fold N. unfold Py.len. fold N.
    assert (HN : N = (78 + whitespace_runs prompt)%nat) by apply full_response_words.
    destruct N as [|n]; [lia|].
    replace (Z.of_nat (S n) - 1) with (0 + Z.of_nat n) by lia.
    rewrite final_flags. now replace (S n - 1)%nat with n by lia.
  - unfold ending. rewrite simulate_llm_streaming_run.
    now rewrite (fate_undisturbed env _ Hc Hs).
Qed.

Lemma llm_stream_complete_run_witness :
  never_disconnected (patient_client 0) /\ sleeps_return (patient_client 0)
  /\ List.map LLMStreamChunk.chunk_id
       (llm_chunks
          (events (simulate_llm_streaming "hi") (patient_client 0)
             (start streaming_service)))
     = Zseq 1 (List.length (Py.split (full_response "hi"))).
Proof.
  split; [intros k; reflexivity|]. split; [intros k; reflexivity|].
  apply (llm_stream_complete_run (patient_client 0) "hi" streaming_service);
    intros k; reflexivity.
Defined.

(* ================================================================== *)
(** ** The counter stream *)
(* ================================================================== *)

Lemma stream_messages_events env n : forall r c,
  List.map SSE.event (stream_messages env r c n) = repeat "message" n.
Proof. induction n; intros; simpl; auto. now rewrite IHn. Qed.







(* ================================================================== *)
(** ** The id of the terminal event *)
(* ================================================================== *)

Lemma count_event_app name xs ys :
  count_event name (xs ++ ys) = (count_event name xs + count_event name ys)%nat.
Proof. unfold count_event. now rewrite List.filter_app, List.length_app. Qed.

Lemma count_event_stream_messages env n r c :
  count_event "message" (stream_messages env r c n) = n.
Proof.
  rewrite count_event_names, stream_messages_events, count_name_repeat.
  reflexivity.
Qed.

Lemma count_event_llm_emits words xs c :
  count_event "llm_chunk" (emits (llm_emit words) llm_next (Py.enumerate xs) c)
  = List.length xs.
Proof.
  unfold Py.enumerate.
  rewrite count_event_names, llm_emits_events, count_name_repeat. reflexivity.
Qed.



(* ================================================================== *)
(** ** The progress stream, run to its end *)
(* ================================================================== *)

(** C5.  When the client never disconnects, the progress stream emits 21
    ["progress"] events, one for each step 0..20; the progress of step
    [step] is floor(step*100/20), the values never decrease, and the status
    is "in_progress" on steps 0..19 and "completed" on step 20. *)
Theorem progress_stream_complete_run env task_name sv :
  never_disconnected env -> sleeps_return env ->
  let evs := events (simulate_progress_task task_name) env (start sv) in
  let updates := progress_updates evs in
  List.map SSE.event evs = repeat "progress" 21
  /\ List.map SSE.id evs = List.map Py.str (Zseq 0 21)
  /\ List.map ProgressUpdate.progress updates
     = List.map (fun step => step * 100 / 20) (Zseq 0 21)
  /\ nondecreasing (List.map ProgressUpdate.progress updates) = true
  /\ List.map ProgressUpdate.status updates
     = repeat "in_progress" 20 ++ ["completed"]
  /\ ending (simulate_progress_task task_name) env (start sv) = Done tt.
Proof.
  intros Hc Hs evs updates. subst updates evs. unfold events, ending.
  rewrite simulate_progress_task_run. cbv zeta.
  rewrite (fate_undisturbed env 21 Hc Hs).
  cbn [fst snd emitted stopped ending_of].
  generalize (("task_" ++ Py.str (env_time env (time_reads (start sv))))%string).
  intros task_id.
  repeat split; vm_compute; reflexivity.
Qed.

Lemma progress_stream_complete_run_witness :
  never_disconnected (patient_client 0) /\ sleeps_return (patient_client 0)
  /\ List.map ProgressUpdate.progress
       (progress_updates
          (events (simulate_progress_task "backup") (patient_client 0)
             (start streaming_service)))
     = List.map (fun step => step * 100 / 20) (Zseq 0 21).
Proof.
  split; [intros k; reflexivity|]. split; [intros k; reflexivity|].
  apply (progress_stream_complete_run (patient_client 0) "backup" streaming_service);
    intros k; reflexivity.
Defined.

(* ================================================================== *)
(** ** The prompt and the length of the text-generation stream *)
(* ================================================================== *)

Lemma llm_chunk_count env prompt sv :
  never_disconnected env -> sleeps_return env ->
  count_event "llm_chunk" (events (simulate_llm_streaming prompt) env (start sv))
  = List.length (Py.split (full_response prompt)).
Proof.
  intros Hc Hs. unfold events. rewrite simulate_llm_streaming_run. cbv zeta.
  rewrite (fate_undisturbed env _ Hc Hs). cbn [fst emitted stopped].
  rewrite List.firstn_all, count_event_app, count_event_llm_emits.
  cbn. lia.
Qed.

(** C6, as stated, fails: a prompt of two words gives one more chunk than
    a prompt of one word. *)
Lemma llm_chunk_count_depends_on_prompt :
  count_event "llm_chunk"
    (events (simulate_llm_streaming "hello") (patient_client 0)
       (start streaming_service))
  <> count_event "llm_chunk"
       (events (simulate_llm_streaming "hello world") (patient_client 0)
          (start streaming_service)).
Proof. vm_compute. discriminate. Qed.

(** C6, amended.  The prompt stands between the quotes of the first
    sentence of the canned text, and a complete run emits 78 chunks plus
    one for each maximal run of whitespace in the prompt: two prompts with
    the same number of whitespace runs (two prompts without whitespace, for
    one) give the same number of chunks. *)
Theorem llm_chunk_count_by_whitespace env1 env2 prompt1 prompt2 sv :
  never_disconnected env1 -> sleeps_return env1 ->
  never_disconnected env2 -> sleeps_return env2 ->
  let chunks1 :=
    count_event "llm_chunk" (events (simulate_llm_streaming prompt1) env1 (start sv)) in
  let chunks2 :=
    count_event "llm_chunk" (events (simulate_llm_streaming prompt2) env2 (start sv)) in
  chunks1 = (78 + whitespace_runs prompt1)%nat
  /\ (whitespace_runs prompt1 = whitespace_runs prompt2 -> chunks1 = chunks2).
Proof.
  intros Hc1 Hs1 Hc2 Hs2 chunks1 chunks2. subst chunks1 chunks2.
  rewrite !llm_chunk_count, !full_response_words by assumption.
  split; [reflexivity | intros H; now rewrite H].
Qed.

Lemma llm_chunk_count_by_whitespace_witness :
  never_disconnected (patient_client 0) /\ sleeps_return (patient_client 0)
  /\ never_disconnected (patient_client 7) /\ sleeps_return (patient_client 7)
  /\ whitespace_runs "streaming" = whitespace_runs "generators"
  /\ count_event "llm_chunk"
       (events (simulate_llm_streaming "streaming") (patient_client 0)
          (start streaming_service))
     = count_event "llm_chunk"
         (events (simulate_llm_streaming "generators") (patient_client 7)
            (start streaming_service)).
Proof.
  repeat (split; [try reflexivity; intros k; reflexivity|]).
  apply (llm_chunk_count_by_whitespace (patient_client 0) (patient_client 7)
           "streaming" "generators" streaming_service);
    try (intros k; reflexivity); reflexivity.
Defined.

(* ================================================================== *)
(** ** The POST stream *)
(* ================================================================== *)

(** C3, as stated, fails: the words split are those of the acknowledgement
    built around the message, so "hello world" gives more than two chunk
    lines and the empty message gives chunk lines too. *)
Lemma post_stream_chunks_of_acknowledgement :
  List.length
    (events (post_stream "hello world" ChatMessage.Omitted) (patient_client 0)
       (start streaming_service)) <> 3%nat
  /\ events (post_stream "" ChatMessage.Omitted) (patient_client 0)
       (start streaming_service)
     <> [Py.encode post_final_chunk].
Proof.
  split.
  - vm_compute. discriminate.
  - intros H. apply (f_equal (@List.length _)) in H. vm_compute in H. discriminate.
Qed.

(** C3, amended.  With a client that never disconnects, the message
    "hello world" gives the five chunk lines of the words of
    [Processing your message: 'hello world'], with indices 0 to 4 in that
    order, then the completion line; the empty message gives the four chunk
    lines of [Processing your message: ''], then the completion line.  Each
    chunk line carries the user id of the request, "anonymous" when the
    field is absent. *)
Theorem post_stream_hello_world env user_id sv :
  never_disconnected env -> sleeps_return env ->
  let u := ChatMessage.user_id (ChatMessage.make "hello world" user_id) in
  events (post_stream "hello world" user_id) env (start sv)
  = List.map Py.encode
      [post_chunk "Processing" 0 u; post_chunk "your" 1 u;
       post_chunk "message:" 2 u; post_chunk "'hello" 3 u;
       post_chunk "world'" 4 u; post_final_chunk]
  /\ events (post_stream "" user_id) env (start sv)
     = List.map Py.encode
         [post_chunk "Processing" 0 u; post_chunk "your" 1 u;
          post_chunk "message:" 2 u; post_chunk "''" 3 u; post_final_chunk]
  /\ format_optional u
     = match user_id with
       | ChatMessage.Omitted => "anonymous"
       | ChatMessage.Null => "None"
       | ChatMessage.Given s => s
       end
  /\ post_chunk "Processing" 0 (Some "anonymous")
     = ("data: {'chunk': 'Processing ', 'index': 0, 'user_id': 'anonymous'}"
          ++ Py.LF ++ Py.LF)%string.
Proof.
  intros Hc Hs u. subst u. unfold events, post_stream.
  rewrite !generate_response_run. cbv zeta.
  rewrite !(fate_undisturbed env _ Hc Hs). cbn [fst emitted stopped].
  rewrite !List.firstn_all.
  repeat split; destruct user_id; vm_compute; reflexivity.
Qed.

Lemma post_stream_hello_world_witness :
  never_disconnected (patient_client 0) /\ sleeps_return (patient_client 0)
  /\ events (post_stream "hello world" ChatMessage.Omitted) (patient_client 0)
       (start streaming_service)
     = List.map Py.encode
         [post_chunk "Processing" 0 (Some "anonymous");
          post_chunk "your" 1 (Some "anonymous");
          post_chunk "message:" 2 (Some "anonymous");
          post_chunk "'hello" 3 (Some "anonymous");
          post_chunk "world'" 4 (Some "anonymous"); post_final_chunk].
Proof.
  split; [intros k; reflexivity|]. split; [intros k; reflexivity|].
  apply (post_stream_hello_world (patient_client 0) ChatMessage.Omitted
           streaming_service); intros k; reflexivity.
Defined.

Lemma fate_raised env len : forall k p q at_sleep e,
  (k < len)%nat ->
  (forall j, (j < k)%nat ->
     env_is_disconnected env (p + j) = Returns false
     /\ env_sleep env (q + j) = Returns tt) ->
  (if at_sleep : bool
   then env_is_disconnected env (p + k) = Returns false
        /\ env_sleep env (q + k) = Raises e
   else env_is_disconnected env (p + k) = Raises e) ->
  fate env p q len
  = {| emitted := if at_sleep then S k else k;
       polled := S k;
       stopped := if at_sleep then SleepRaised e else PollRaised e |}.
Proof.
  induction len; intros k p q at_sleep e Hk Hbefore Hat; [lia|].
  simpl. destruct k as [|k].
  - rewrite !Nat.add_0_r in Hat. destruct at_sleep.
    + destruct Hat as [Hp Hq]. now rewrite Hp, Hq.
    + now rewrite Hat.
  - destruct (Hbefore 0%nat ltac:(lia)) as [Hp Hq].
    rewrite !Nat.add_0_r in Hp, Hq. rewrite Hp, Hq.
    rewrite (IHlen k (S p) (S q) at_sleep e).
    + destruct at_sleep; reflexivity.
    + lia.
    + intros j Hj.
      replace (S p + j)%nat with (p + S j)%nat by lia.
      replace (S q + j)%nat with (q + S j)%nat by lia.
      apply Hbefore. lia.
    + replace (S p + k)%nat with (p + S k)%nat by lia.
      replace (S q + k)%nat with (q + S k)%nat by lia.
      exact Hat.
Qed.

(** C7, as stated, fails: [asyncio.CancelledError] is not an [Exception],
    so when it interrupts the first sleep the stream stops after its first
    chunk line with no error line, and the exception leaves the generator. *)
Lemma post_stream_cancelled_propagates :
  events (post_stream "hello" ChatMessage.Omitted)
    (interrupted_client 0 CancelledError) (start streaming_service)
  = [Py.encode (post_chunk "Processing" 0 (Some "anonymous"))]
  /\ ending (post_stream "hello" ChatMessage.Omitted)
       (interrupted_client 0 CancelledError) (start streaming_service)
     = Raised CancelledError.
Proof. split; vm_compute; reflexivity. Qed.

(** C7, amended.  In the POST stream an instance of [Exception] never
    leaves the generator; when one is raised inside the loop, by poll [k] or
    by sleep [k], the stream is the chunk lines emitted before it followed
    by the one error line [{'error': 'Processing failed: <str(e)>'}], and
    the generator ends normally: no chunk or completion line follows. *)
Theorem post_stream_error_payload env message sv k at_sleep e :
  is_Exception e = true ->
  (k < List.length (Py.split (response_text message)))%nat ->
  raised_at env k at_sleep e ->
  let words := Py.split (response_text message) in
  let n := if at_sleep then S k else k in
  events (generate_response message) env (start sv)
  = List.map (post_line message) (Py.enumerate (firstn n words))
      ++ [Py.encode (post_error_chunk e)]
  /\ ending (generate_response message) env (start sv) = Done tt
  /\ (forall env' e', ending (generate_response message) env' (start sv) = Raised e' ->
        is_Exception e' = false).
Proof.
  intros He Hk [Hbefore Hat] words n. subst words n. unfold events, ending.
  rewrite generate_response_run. cbv zeta. cbn [start polls sleeps].
  rewrite (fate_raised env _ k 0 0 at_sleep e Hk Hbefore Hat).
  cbn [fst snd emitted stopped].
  repeat split.
  - destruct at_sleep; cbn [ending_of]; now rewrite He.
  - destruct at_sleep; cbn [ending_of]; now rewrite He.
  - intros env' e'. rewrite generate_response_run. cbv zeta. cbn [snd].
    destruct (stopped (fate env' _ _ _)) as [| |x|x]; cbn [ending_of];
      try discriminate;
      destruct (is_Exception x) eqn:Hx; try discriminate;
      intros H; injection H as <-; exact Hx.
Qed.

Lemma post_stream_error_payload_witness :
  is_Exception (Exception "connection reset") = true
  /\ raised_at (interrupted_client 1 (Exception "connection reset")) 1 true
       (Exception "connection reset")
  /\ ending (generate_response (ChatMessage.make "hello" ChatMessage.Omitted))
       (interrupted_client 1 (Exception "connection reset"))
       (start streaming_service) = Done tt.
Proof.
  assert (H : raised_at (interrupted_client 1 (Exception "connection reset")) 1 true
                (Exception "connection reset")).
  { split.
    - intros j Hj. assert (j = 0%nat) by lia. subst j. split; reflexivity.
    - split; reflexivity. }
  split; [reflexivity|]. split; [exact H|].
  apply (post_stream_error_payload
           (interrupted_client 1 (Exception "connection reset"))
           (ChatMessage.make "hello" ChatMessage.Omitted) streaming_service
           1 true (Exception "connection reset")
           eq_refl); [vm_compute; lia | exact H].
Defined.

(** An exception outside [Exception] raised inside the loop of the POST
    stream, by poll [k] or by sleep [k]: the chunk lines emitted before it,
    no error line, and the exception leaves the generator. *)
Lemma post_stream_base_exception_propagates env message sv k at_sleep e :
  is_Exception e = false ->
  (k < List.length (Py.split (response_text message)))%nat ->
  raised_at env k at_sleep e ->
  events (generate_response message) env (start sv)
  = List.map (post_line message)
      (Py.enumerate
         (firstn (if at_sleep then S k else k)
            (Py.split (response_text message))))
  /\ ending (generate_response message) env (start sv) = Raised e.
Proof.
  intros He Hk [Hbefore Hat]. unfold events, ending.
  rewrite generate_response_run. cbv zeta. cbn [start polls sleeps].
  rewrite (fate_raised env _ k 0 0 at_sleep e Hk Hbefore Hat).
  cbn [fst snd emitted stopped].
  destruct at_sleep; cbn [ending_of]; rewrite He, app_nil_r; split; reflexivity.
Qed.

(* ================================================================== *)
(** ** Two invocations of one endpoint *)
(* ================================================================== *)

Lemma stream_messages_shape env1 env2 n : forall r1 r2 c,
  List.map shape (stream_messages env1 r1 c n)
  = List.map shape (stream_messages env2 r2 c n).
Proof.
  induction n as [|n IH]; intros r1 r2 c; simpl; auto.
  now rewrite (IH (S (S r1)) (S (S r2))).
Qed.

Lemma progress_events_shape task_name task_id1 task_id2 steps :
  List.map shape (List.map (progress_event task_name task_id1) steps)
  = List.map shape (List.map (progress_event task_name task_id2) steps).
Proof. rewrite !List.map_map. apply List.map_ext. reflexivity. Qed.

(** C8.  Two invocations of a GET stream endpoint with the same parameters,
    against clients that behave alike, on any two clocks: the two streams
    have the same events with the same names, ids and payload fields, the
    fields read from the clock apart, and end alike. *)
Theorem get_streams_repeatable env1 env2 fuel prompt task_name sv :
  (10 <= fuel)%nat -> same_client env1 env2 ->
  (List.map shape (events (basic_stream fuel) env1 (start sv))
   = List.map shape (events (basic_stream fuel) env2 (start sv))
   /\ ending (basic_stream fuel) env1 (start sv)
      = ending (basic_stream fuel) env2 (start sv))
  /\ (events (llm_stream prompt) env1 (start sv)
      = events (llm_stream prompt) env2 (start sv)
      /\ ending (llm_stream prompt) env1 (start sv)
         = ending (llm_stream prompt) env2 (start sv))
  /\ (List.map shape (events (progress_stream task_name) env1 (start sv))
      = List.map shape (events (progress_stream task_name) env2 (start sv))
      /\ ending (progress_stream task_name) env1 (start sv)
         = ending (progress_stream task_name) env2 (start sv)).
Proof.
  intros Hfuel Hsame.
  unfold events, ending, basic_stream, llm_stream, progress_stream.
  rewrite !(stream_events_run _ fuel (start sv) Hfuel).
  rewrite !simulate_llm_streaming_run, !simulate_progress_task_run. cbv zeta.
  rewrite !(fate_same_client env1 env2 _ Hsame).
  cbn [fst snd start polls sleeps now_reads time_reads].
  repeat split.
  - rewrite !List.map_app.
    now rewrite (stream_messages_shape env1 env2 _ 0%nat 0%nat).
  - apply progress_events_shape.
Qed.

Lemma get_streams_repeatable_witness :
  (10 <= 10)%nat /\ same_client (patient_client 0) (patient_client 86400)
  /\ List.map shape
       (events (basic_stream 10) (patient_client 0) (start streaming_service))
     = List.map shape
         (events (basic_stream 10) (patient_client 86400) (start streaming_service)).
Proof.
  assert (H : same_client (patient_client 0) (patient_client 86400)).
  { split; intros k; reflexivity. }
  split; [lia|]. split; [exact H|].
  apply (get_streams_repeatable (patient_client 0) (patient_client 86400) 10
           None "backup" streaming_service); [lia | exact H].
Defined.

(* ================================================================== *)
(** ** The shared service object *)
(* ================================================================== *)

(** C9.  None of the four generators writes or reads the shared
    [StreamingService]: a run leaves [active_connections] as it found it,
    and emits the same values and ends the same way whatever the set
    holds. *)
Theorem generators_leave_service_alone env fuel prompt task_name message sv sv' :
  (10 <= fuel)%nat ->
  (service (final_world (stream_events fuel) env (start sv)) = sv
   /\ events (stream_events fuel) env (start sv')
      = events (stream_events fuel) env (start sv)
   /\ ending (stream_events fuel) env (start sv')
      = ending (stream_events fuel) env (start sv))
  /\ (service (final_world (simulate_llm_streaming prompt) env (start sv)) = sv
      /\ events (simulate_llm_streaming prompt) env (start sv')
         = events (simulate_llm_streaming prompt) env (start sv)
      /\ ending (simulate_llm_streaming prompt) env (start sv')
         = ending (simulate_llm_streaming prompt) env (start sv))
  /\ (service (final_world (simulate_progress_task task_name) env (start sv)) = sv
      /\ events (simulate_progress_task task_name) env (start sv')
         = events (simulate_progress_task task_name) env (start sv)
      /\ ending (simulate_progress_task task_name) env (start sv')
         = ending (simulate_progress_task task_name) env (start sv))
  /\ (service (final_world (generate_response message) env (start sv)) = sv
      /\ events (generate_response message) env (start sv')
         = events (generate_response message) env (start sv)
      /\ ending (generate_response message) env (start sv')
         = ending (generate_response message) env (start sv)).
Proof.
  intros Hfuel. unfold events, ending, final_world.
  rewrite !(stream_events_run env fuel _ Hfuel).
  rewrite !simulate_llm_streaming_run, !simulate_progress_task_run,
    !generate_response_run.
  cbv zeta. cbn [fst snd start polls sleeps now_reads time_reads].
  repeat split.
Qed.

Lemma generators_leave_service_alone_witness :
  (10 <= 10)%nat
  /\ service
       (final_world (stream_events 10) (leaving_client 4)
          (start {| StreamingService.active_connections := [1; 2]%nat |}))
     = {| StreamingService.active_connections := [1; 2]%nat |}.
Proof.
  split; [lia|].
  apply (generators_leave_service_alone (leaving_client 4) 10 "hi" "backup"
           (ChatMessage.make "hello" ChatMessage.Omitted)
           {| StreamingService.active_connections := [1; 2]%nat |}
           streaming_service). lia.
Defined.

(* ================================================================== *)
(** ** A detected disconnect and the terminal marker *)
(* ================================================================== *)

(** The text-generation stream against a client whose disconnect is
    detected by poll [k], before word [k+1]: the [k] chunks emitted so far,
    and then ["llm_complete"] all the same, with id [k + 1]. *)
Lemma llm_stream_disconnected env prompt sv k :
  (k < List.length (Py.split (full_response prompt)))%nat ->
  disconnect_detected_at env k -> sleeps_return env ->
  let words := Py.split (full_response prompt) in
  events (simulate_llm_streaming prompt) env (start sv)
  = emits (llm_emit words) llm_next (Py.enumerate (firstn k words)) 0
      ++ [llm_complete (Z.of_nat k)].
Proof.
  intros Hk [Hbefore Hat] Hs words. subst words. unfold events.
  rewrite simulate_llm_streaming_run. cbv zeta. cbn [start polls sleeps].
  rewrite (fate_disconnect env _ k 0 0 Hk Hbefore Hat Hs).
  reflexivity.
Qed.

(** C1 at a client whose disconnect is seen by the third poll.  The
    text-generation stream and the POST stream leave their loop and still
    emit their terminal marker, ["llm_complete"] and the completion line;
    the counter stream and the progress stream emit nothing more. *)
Theorem terminal_marker_after_disconnect :
  disconnect_detected_at (leaving_client 2) 2
  /\ List.map (fun e => (SSE.event e, SSE.id e))
       (events (simulate_llm_streaming "hi") (leaving_client 2)
          (start streaming_service))
     = [("llm_chunk", "1"); ("llm_chunk", "2"); ("llm_complete", "3")]
  /\ events (post_stream "hello" ChatMessage.Omitted) (leaving_client 2)
       (start streaming_service)
     = List.map Py.encode
         [post_chunk "Processing" 0 (Some "anonymous");
          post_chunk "your" 1 (Some "anonymous");
          post_final_chunk]
  /\ List.map (fun e => (SSE.event e, SSE.id e))
       (events (stream_events 10) (leaving_client 2) (start streaming_service))
     = [("message", "1"); ("message", "2")]
  /\ List.map (fun e => (SSE.event e, SSE.id e))
       (events (simulate_progress_task "backup") (leaving_client 2)
          (start streaming_service))
     = [("progress", "0"); ("progress", "1")].
Proof.
  split; [apply leaving_detected|].
  repeat split; vm_compute; reflexivity.
Qed.


(* ================================================================== *)
(** ** Further properties of the loops *)
(* ================================================================== *)

Lemma fate_polled env len : forall p q,
  (emitted (fate env p q len) <= polled (fate env p q len))%nat
  /\ (polled (fate env p q len) <= S (emitted (fate env p q len)))%nat
  /\ (polled (fate env p q len) <= len)%nat.
Proof.
  induction len; intros p q; simpl; [lia|].
  destruct (env_is_disconnected env p) as [[|]|e]; simpl; try lia.
  destruct (env_sleep env q) as [[]|e]; simpl; try lia.
  specialize (IHlen (S p) (S q)). lia.
Qed.

Lemma Zseq_seq n : forall a,
  List.map Z.of_nat (List.seq a n) = Zseq (Z.of_nat a) n.
Proof.
  induction n; intros a; simpl; auto.
  rewrite IHn. now rewrite Nat2Z.inj_succ, Z.add_1_r.
Qed.

Lemma Zseq_firstn n : forall k a, (k <= n)%nat -> firstn k (Zseq a n) = Zseq a k.
Proof.
  induction n; intros k a Hk.
  - assert (k = 0%nat) by lia. now subst k.
  - destruct k as [|k]; simpl; auto. rewrite IHn by lia. reflexivity.
Qed.

Lemma range_firstn k : (k <= 21)%nat ->
  firstn k (Py.range (total_steps + 1)) = Zseq 0 k.
Proof.
  intros Hk. unfold Py.range.
  change (Z.to_nat (total_steps + 1)) with 21%nat.
  rewrite (Zseq_seq 21 0). now apply Zseq_firstn.
Qed.

Lemma progress_events_names task_name task_id steps :
  List.map SSE.event (List.map (progress_event task_name task_id) steps)
  = repeat "progress" (List.length steps).
Proof. induction steps; simpl; auto. now rewrite IHsteps. Qed.

Lemma progress_events_ids task_name task_id steps :
  List.map SSE.id (List.map (progress_event task_name task_id) steps)
  = List.map Py.str steps.
Proof. induction steps; simpl; auto. now rewrite IHsteps. Qed.

(** X1.  The progress stream against a client whose disconnect is
    detected by poll [k]: exactly the events of steps 0..k-1, all with the
    task id read when the stream started, and nothing after them. *)
Theorem progress_stream_disconnected env task_name sv k :
  (k < 21)%nat -> disconnect_detected_at env k -> sleeps_return env ->
  events (simulate_progress_task task_name) env (start sv)
  = List.map (progress_event task_name ("task_" ++ Py.str (env_time env 0)))
      (Zseq 0 k)
  /\ ending (simulate_progress_task task_name) env (start sv) = Done tt.
Proof.
  intros Hk [Hbefore Hat] Hs. unfold events, ending.
  rewrite simulate_progress_task_run. cbv zeta.
  cbn [start polls sleeps time_reads].
  rewrite (fate_disconnect env 21 k 0 0 Hk Hbefore Hat Hs).
  cbn [fst snd emitted stopped ending_of].
  rewrite range_firstn by lia. split; reflexivity.
Qed.

Lemma progress_stream_disconnected_witness :
  (5 < 21)%nat /\ disconnect_detected_at (leaving_client 5) 5
  /\ sleeps_return (leaving_client 5)
  /\ List.map SSE.id
       (events (simulate_progress_task "backup") (leaving_client 5)
          (start streaming_service))
     = ["0"; "1"; "2"; "3"; "4"].
Proof.
  split; [lia|]. split; [apply leaving_detected|].
  split; [intros k; reflexivity|].
  rewrite (proj1 (progress_stream_disconnected (leaving_client 5) "backup"
                    streaming_service 5 ltac:(lia) (leaving_detected 5)
                    (leaving_sleeps_return 5))).
  reflexivity.
Defined.

Lemma count_event_none name evs x n :
  List.map SSE.event evs = repeat x n -> String.eqb x name = false ->
  count_event name evs = 0%nat.
Proof.
  intros H Hx. now rewrite count_event_names, H, count_name_repeat, Hx.
Qed.

(** X2.  The [while True] of the counter stream stops by itself: against
    any client ten iterations are enough (more fuel changes nothing), the
    stream has at most ten messages and at most one ["complete"], and the
    client is polled at most ten times. *)
Theorem counter_stream_terminates env fuel sv :
  (10 <= fuel)%nat ->
  let evs := events (stream_events fuel) env (start sv) in
  stream_events fuel env (start sv) = stream_events 10 env (start sv)
  /\ ending (stream_events fuel) env (start sv) <> OutOfFuel
  /\ (count_event "message" evs <= 10)%nat
  /\ (count_event "complete" evs <= 1)%nat
  /\ (polls (final_world (stream_events fuel) env (start sv)) <= 10)%nat.
Proof.
  intros Hfuel evs. subst evs. unfold events, ending, final_world.
  rewrite (stream_events_run env fuel (start sv) Hfuel).
  rewrite (stream_events_run env 10 (start sv) (le_n 10)).
  cbv zeta. cbn [start polls sleeps now_reads fst snd].
  pose proof (fate_emitted_le env 10 0 0) as Hle.
  pose proof (fate_polled env 10 0 0) as (_ & _ & Hp).
  destruct (fate env 0 0 10) as [n p st]. cbn [emitted polled stopped] in *.
  repeat split.
  - destruct st as [| |e|e]; cbn; try discriminate;
      destruct (is_CancelledError e); discriminate.
  - rewrite count_event_app, count_event_stream_messages.
    destruct st; cbn; lia.
  - rewrite count_event_app.
    rewrite (count_event_none "complete" _ "message" n
               (stream_messages_events env n 0%nat 0) eq_refl).
    destruct st; cbn; lia.
  - cbn. lia.
Qed.

Lemma counter_stream_terminates_witness :
  (10 <= 25)%nat
  /\ stream_events 25 (leaving_client 3) (start streaming_service)
     = stream_events 10 (leaving_client 3) (start streaming_service).
Proof.
  split; [lia|].
  apply (counter_stream_terminates (leaving_client 3) 25 streaming_service). lia.
Defined.

(** X3.  An exception raised at an await inside a GET generator, by poll
    [k] or by sleep [k]: the stream keeps the data events emitted so far
    and gets no terminal event; [asyncio.CancelledError] is swallowed and
    the generator ends normally, any other exception leaves the
    generator. *)
Theorem get_streams_interrupted env fuel prompt task_name sv k at_sleep e :
  (10 <= fuel)%nat -> raised_at env k at_sleep e ->
  let n := if at_sleep then S k else k in
  let outcome := if is_CancelledError e then Done tt else Raised e in
  ((k < 10)%nat ->
     List.map SSE.event (events (stream_events fuel) env (start sv))
     = repeat "message" n
     /\ ending (stream_events fuel) env (start sv) = outcome)
  /\ ((k < List.length (Py.split (full_response prompt)))%nat ->
        List.map SSE.event (events (simulate_llm_streaming prompt) env (start sv))
        = repeat "llm_chunk" n
        /\ ending (simulate_llm_streaming prompt) env (start sv) = outcome)
  /\ ((k < 21)%nat ->
        List.map SSE.event (events (simulate_progress_task task_name) env (start sv))
        = repeat "progress" n
        /\ ending (simulate_progress_task task_name) env (start sv) = outcome).
Proof.
  intros Hfuel [Hbefore Hat] n outcome. unfold events, ending.
  rewrite (stream_events_run env fuel (start sv) Hfuel).
  rewrite simulate_llm_streaming_run, simulate_progress_task_run.
  cbv zeta. cbn [start polls sleeps now_reads time_reads].
  split; [|split]; intros Hk;
    rewrite (fate_raised env _ k 0 0 at_sleep e Hk Hbefore Hat);
    cbn [fst snd emitted stopped]; subst n outcome;
    (split; [|destruct at_sleep; reflexivity]).
  - destruct at_sleep; rewrite app_nil_r; apply stream_messages_events.
  - assert (Hlen : List.length
                     (firstn (if at_sleep then S k else k)
                        (Py.split (full_response prompt)))
                   = if at_sleep then S k else k).
    { apply firstn_length_le. destruct at_sleep; lia. }
    unfold Py.enumerate.
    destruct at_sleep; rewrite app_nil_r, llm_emits_events, Hlen; reflexivity.
  - rewrite progress_events_names, firstn_length_le; [reflexivity|].
    change (List.length (Py.range (total_steps + 1))) with 21%nat.
    destruct at_sleep; lia.
Qed.

Lemma get_streams_interrupted_witness :
  (10 <= 10)%nat
  /\ raised_at (interrupted_client 2 CancelledError) 2 true CancelledError
  /\ List.map SSE.event
       (events (stream_events 10) (interrupted_client 2 CancelledError)
          (start streaming_service))
     = ["message"; "message"; "message"]
  /\ ending (stream_events 10) (interrupted_client 2 CancelledError)
       (start streaming_service) = Done tt.
Proof.
  assert (H : raised_at (interrupted_client 2 CancelledError) 2 true CancelledError).
  { split.
    - intros j Hj. destruct j as [|[|j]]; [split; reflexivity.. | lia].
    - split; reflexivity. }
  split; [lia|]. split; [exact H|].
  apply (get_streams_interrupted (interrupted_client 2 CancelledError) 10
           "hi" "backup" streaming_service 2 true CancelledError
           ltac:(lia) H). lia.
Defined.

(** X4.  One poll before each data event: in any run of a GET stream the
    client is polled at least once per data event and at most once more,
    and the generator has slept exactly once per data event. *)
Theorem one_poll_per_data_event env fuel prompt task_name sv :
  (10 <= fuel)%nat ->
  let within (data polled slept : nat) :=
    (data <= polled)%nat /\ (polled <= S data)%nat /\ slept = data in
  within (count_event "message" (events (stream_events fuel) env (start sv)))
         (polls (final_world (stream_events fuel) env (start sv)))
         (sleeps (final_world (stream_events fuel) env (start sv)))
  /\ within (count_event "llm_chunk"
               (events (simulate_llm_streaming prompt) env (start sv)))
            (polls (final_world (simulate_llm_streaming prompt) env (start sv)))
            (sleeps (final_world (simulate_llm_streaming prompt) env (start sv)))
  /\ within (count_event "progress"
               (events (simulate_progress_task task_name) env (start sv)))
            (polls (final_world (simulate_progress_task task_name) env (start sv)))
            (sleeps (final_world (simulate_progress_task task_name) env (start sv))).
Proof.
  intros Hfuel within. subst within. unfold events, final_world.
  rewrite (stream_events_run env fuel (start sv) Hfuel).
  rewrite simulate_llm_streaming_run, simulate_progress_task_run.
  cbv zeta. cbn [start polls sleeps now_reads time_reads fst snd].
  split; [|split].
  - pose proof (fate_polled env 10 0 0) as (H1 & H2 & _).
    destruct (fate env 0 0 10) as [n p st]. cbn [emitted polled stopped] in *.
    rewrite count_event_app, count_event_stream_messages.
    replace (count_event "message"
               match st with
               | Completed => [stream_complete (Z.of_nat n)]
               | _ => []
               end) with 0%nat by (destruct st; reflexivity).
    cbn. lia.
  - set (words := Py.split (full_response prompt)).
    pose proof (fate_polled env (List.length words) 0 0) as (H1 & H2 & _).
    pose proof (fate_emitted_le env (List.length words) 0 0) as Hle.
    destruct (fate env 0 0 (List.length words)) as [n p st].
    cbn [emitted polled stopped] in *.
    rewrite count_event_app, count_event_llm_emits, firstn_length_le by lia.
    replace (count_event "llm_chunk"
               match st with
               | Completed => [llm_complete (Z.of_nat n)]
               | Disconnected => [llm_complete (Z.of_nat n)]
               | _ => []
               end) with 0%nat by (destruct st; reflexivity).
    cbn. lia.
  - pose proof (fate_polled env 21 0 0) as (H1 & H2 & _).
    pose proof (fate_emitted_le env 21 0 0) as Hle.
    destruct (fate env 0 0 21) as [n p st]. cbn [emitted polled stopped] in *.
    rewrite count_event_names, progress_events_names, count_name_repeat.
    rewrite firstn_length_le
      by (change (List.length (Py.range (total_steps + 1))) with 21%nat; lia).
    cbn. lia.
Qed.

Lemma one_poll_per_data_event_witness :
  (10 <= 10)%nat
  /\ (count_event "message"
        (events (stream_events 10) (leaving_client 4) (start streaming_service))
      <= polls (final_world (stream_events 10) (leaving_client 4)
                  (start streaming_service)))%nat.
Proof.
  split; [lia|].
  apply (one_poll_per_data_event (leaving_client 4) 10 "hi" "backup"
           streaming_service). lia.
Defined.

Lemma llm_emits_final_flag words ws : forall i,
  Forall (fun c => LLMStreamChunk.is_final c
                   = (LLMStreamChunk.chunk_id c =? Py.len words))
    (llm_chunks (emits (llm_emit words) llm_next (Py.enumerate_from i ws) i)).
Proof.
  induction ws as [|x ws IH]; intros i; [constructor|].
  cbn [Py.enumerate_from emits]. unfold llm_next at 1.
  constructor; [|apply IH].
  cbn. destruct (Z.eqb_spec i (Py.len words - 1)), (Z.eqb_spec (i + 1) (Py.len words));
    try reflexivity; lia.
Qed.

(** X5.  In any run of the text-generation stream, against any client,
    [is_final] is set on a chunk exactly when its [chunk_id] is the word
    count of the response text: a stream that is cut short carries no final
    chunk. *)
Theorem is_final_marks_last_word env prompt sv :
  Forall (fun c => LLMStreamChunk.is_final c
                   = (LLMStreamChunk.chunk_id c
                      =? Py.len (Py.split (full_response prompt))))
    (llm_chunks (events (simulate_llm_streaming prompt) env (start sv))).
Proof.
  unfold events. rewrite simulate_llm_streaming_run. cbv zeta. cbn [fst].
  rewrite llm_chunks_app. apply Forall_app. split.
  - apply llm_emits_final_flag.
  - destruct (stopped _); constructor.
Qed.

Lemma forallb_firstn {A : Type} (f : A -> bool) n : forall l,
  forallb f l = true -> forallb f (firstn n l) = true.
Proof.
  induction n; intros l H; simpl; auto.
  destruct l as [|x l]; simpl in *; auto.
  apply andb_true_iff in H as [Hx Hl]. rewrite Hx. now apply IHn.
Qed.

(** X6.  In any run of the progress stream, against any client, every
    event carries a progress between 0 and 100; the status is "completed"
    exactly on step 20 and exactly when the progress is 100, and
    "in_progress" otherwise. *)
Theorem progress_events_ok env task_name sv :
  forallb progress_ok (events (simulate_progress_task task_name) env (start sv))
  = true.
Proof.
  unfold events. rewrite simulate_progress_task_run. cbv zeta. cbn [fst].
  rewrite <- List.firstn_map. apply forallb_firstn.
  generalize (("task_" ++ Py.str (env_time env (time_reads (start sv))))%string).
  intros task_id. vm_compute. reflexivity.
Qed.

Lemma stream_messages_envelope task_name env n : forall r c,
  Forall (envelope_matches task_name) (stream_messages env r c n).
Proof.
  induction n; intros r c; simpl; constructor; auto.
  split; reflexivity.
Qed.

Lemma llm_emits_envelope task_name words xs : forall c,
  Forall (envelope_matches task_name) (emits (llm_emit words) llm_next xs c).
Proof.
  induction xs as [|[i word] xs IH]; intros c; simpl; constructor; auto.
  reflexivity.
Qed.

Lemma progress_events_envelope task_name task_id steps :
  Forall (envelope_matches task_name)
    (List.map (progress_event task_name task_id) steps).
Proof. induction steps; simpl; constructor; auto. reflexivity. Qed.

(** X7.  In any run of a GET stream the envelope of every event agrees
    with the record it carries: a counter message has the id and the name of
    its envelope, a chunk has the sequence number of its envelope, the
    message of a progress update names the step of its envelope. *)
Theorem envelope_matches_payload env fuel prompt task_name sv :
  (10 <= fuel)%nat ->
  Forall (envelope_matches task_name)
    (events (stream_events fuel) env (start sv))
  /\ Forall (envelope_matches task_name)
       (events (simulate_llm_streaming prompt) env (start sv))
  /\ Forall (envelope_matches task_name)
       (events (simulate_progress_task task_name) env (start sv)).
Proof.
  intros Hfuel. unfold events.
  rewrite (stream_events_run env fuel (start sv) Hfuel).
  rewrite simulate_llm_streaming_run, simulate_progress_task_run.
  cbv zeta. cbn [fst].
  split; [|split].
  - apply Forall_app. split; [apply stream_messages_envelope|].
    destruct (stopped _); repeat constructor.
  - apply Forall_app. split; [apply llm_emits_envelope|].
    destruct (stopped _); repeat constructor.
  - apply progress_events_envelope.
Qed.

Lemma envelope_matches_payload_witness :
  (10 <= 10)%nat
  /\ Forall (envelope_matches "backup")
       (events (simulate_progress_task "backup") (leaving_client 3)
          (start streaming_service)).
Proof.
  split; [lia|].
  apply (envelope_matches_payload (leaving_client 3) 10 "hi" "backup"
           streaming_service). lia.
Defined.

Lemma filter_names_all x : forall evs n,
  List.map SSE.event evs = repeat x n -> List.filter (has_event x) evs = evs.
Proof.
  induction evs as [|e evs IH]; intros n H; [reflexivity|].
  destruct n as [|n]; [discriminate|]. simpl in H. injection H as He Hevs.
  simpl. unfold has_event at 1. rewrite He, String.eqb_refl.
  f_equal. eauto.
Qed.

Lemma stream_messages_firstn env m : forall n r c,
  (n <= m)%nat ->
  stream_messages env r c n = firstn n (stream_messages env r c m).
Proof.
  induction m; intros n r c Hn.
  - assert (n = 0%nat) by lia. now subst n.
  - destruct n as [|n]; simpl; auto. f_equal. apply IHm. lia.
Qed.

Lemma emits_firstn {Y A S : Type} (emit : A -> S -> Y) (next : A -> S -> S) n :
  forall xs s, emits emit next (firstn n xs) s = firstn n (emits emit next xs s).
Proof.
  induction n; intros xs s; simpl; auto.
  destruct xs; simpl; auto. now rewrite IHn.
Qed.

(** X8.  Whatever the client does, the data events of a GET stream are
    the first events of the complete run, in the same order: a disconnect
    or an exception shortens the stream and changes nothing in what was
    emitted before (the fields read from the clock apart). *)
Theorem data_events_prefix env env0 fuel prompt task_name sv :
  (10 <= fuel)%nat -> never_disconnected env0 -> sleeps_return env0 ->
  (exists n,
     List.map shape
       (List.filter (has_event "message")
          (events (stream_events fuel) env (start sv)))
     = firstn n
         (List.map shape
            (List.filter (has_event "message")
               (events (stream_events fuel) env0 (start sv)))))
  /\ (exists n,
        List.filter (has_event "llm_chunk")
          (events (simulate_llm_streaming prompt) env (start sv))
        = firstn n
            (List.filter (has_event "llm_chunk")
               (events (simulate_llm_streaming prompt) env0 (start sv))))
  /\ (exists n,
        List.map shape (events (simulate_progress_task task_name) env (start sv))
        = firstn n
            (List.map shape
               (events (simulate_progress_task task_name) env0 (start sv)))).
Proof.
  intros Hfuel Hc Hs. unfold events.
  rewrite !(stream_events_run _ fuel (start sv) Hfuel).
  rewrite !simulate_llm_streaming_run, !simulate_progress_task_run.
  cbv zeta. cbn [start polls sleeps now_reads time_reads fst].
  rewrite !(fate_undisturbed env0 _ Hc Hs). cbn [emitted stopped].
  split; [|split].
  - pose proof (fate_emitted_le env 10 0 0) as Hle.
    destruct (fate env 0 0 10) as [n p st]. cbn [emitted stopped] in *.
    exists n. rewrite !List.filter_app.
    rewrite !(filter_names_all "message" _ _ (stream_messages_events _ _ _ _)).
    replace (List.filter (has_event "message")
               match st with
               | Completed => [stream_complete (Z.of_nat n)]
               | _ => []
               end) with (@nil SSE.t) by (destruct st; reflexivity).
    cbn [List.filter]. rewrite !app_nil_r.
    rewrite (stream_messages_shape env env0 n 0%nat 0%nat).
    rewrite (stream_messages_firstn env0 10 n 0%nat 0 Hle).
    symmetry. apply List.firstn_map.
  - set (words := Py.split (full_response prompt)).
    destruct (fate env 0 0 (List.length words)) as [n p st].
    cbn [emitted stopped]. exists n.
    rewrite List.firstn_all, !List.filter_app. unfold Py.enumerate.
    rewrite !(filter_names_all "llm_chunk" _ _ (llm_emits_events words _ _ _)).
    replace (List.filter (has_event "llm_chunk")
               match st with
               | Completed => [llm_complete (Z.of_nat n)]
               | Disconnected => [llm_complete (Z.of_nat n)]
               | _ => []
               end) with (@nil SSE.t) by (destruct st; reflexivity).
    cbn [List.filter]. rewrite !app_nil_r.
    rewrite <- emits_firstn. now rewrite enumerate_from_firstn.
  - exists (emitted (fate env 0 0 21)).
    rewrite (progress_events_shape task_name _
               ("task_" ++ Py.str (env_time env0 0))).
    rewrite <- !List.firstn_map. rewrite List.firstn_firstn.
    f_equal. pose proof (fate_emitted_le env 21 0 0). lia.
Qed.

Lemma data_events_prefix_witness :
  (10 <= 10)%nat /\ never_disconnected (patient_client 0)
  /\ sleeps_return (patient_client 0)
  /\ exists n,
       List.filter (has_event "llm_chunk")
         (events (simulate_llm_streaming "hi") (leaving_client 3)
            (start streaming_service))
       = firstn n
           (List.filter (has_event "llm_chunk")
              (events (simulate_llm_streaming "hi") (patient_client 0)
                 (start streaming_service))).
Proof.
  split; [lia|]. split; [intros k; reflexivity|]. split; [intros k; reflexivity|].
  apply (data_events_prefix (leaving_client 3) (patient_client 0) 10 "hi"
           "backup" streaming_service);
    [lia | intros k; reflexivity | intros k; reflexivity].
Defined.

(* ================================================================== *)
(** ** Words, and what a reader can put together again *)
(* ================================================================== *)

Lemma append_assoc (a b c : string) : ((a ++ b) ++ c = a ++ (b ++ c))%string.
Proof. induction a; simpl; auto. now rewrite IHa. Qed.

Lemma append_nil_r (a : string) : (a ++ "" = a)%string.
Proof. induction a; simpl; auto. now rewrite IHa. Qed.

Lemma is_word_append_char w c :
  no_space w = true -> Py.isspace c = false ->
  is_word (w ++ String c "") = true /\ no_space (w ++ String c "") = true.
Proof.
  intros Hw Hc.
  assert (H : no_space (w ++ String c "") = true).
  { induction w as [|a w IH]; simpl in *.
    - now rewrite Hc.
    - apply andb_true_iff in Hw as [Ha Hw]. rewrite Ha. now apply IH. }
  split; [|exact H]. destruct w; exact H.
Qed.

Lemma is_word_no_space w : is_word w = true -> no_space w = true.
Proof. destruct w; [discriminate | auto]. Qed.

(** Every string [split] returns is a word. *)
Lemma split_scan_words s : forall cur,
  match cur with
  | Some w => is_word w = true
  | None => True
  end ->
  forallb is_word (Py.split_scan s cur) = true.
Proof.
  induction s as [|c s IH]; intros cur Hcur; simpl.
  - destruct cur; simpl; [now rewrite Hcur | reflexivity].
  - destruct (Py.isspace c) eqn:Hc.
    + destruct cur; simpl; [rewrite Hcur|]; apply IH; exact I.
    + destruct cur as [w|]; apply IH.
      * apply is_word_append_char; [now apply is_word_no_space | exact Hc].
      * simpl. now rewrite Hc.
Qed.

Lemma split_words s : forallb is_word (Py.split s) = true.
Proof. apply split_scan_words. exact I. Qed.

Lemma split_scan_word_prefix u : forall w s,
  no_space u = true ->
  Py.split_scan (u ++ s) (Some w) = Py.split_scan s (Some (w ++ u)%string).
Proof.
  induction u as [|c u IH]; intros w s Hu; simpl.
  - now rewrite append_nil_r.
  - simpl in Hu. apply andb_true_iff in Hu as [Hc Hu].
    apply negb_true_iff in Hc. rewrite Hc, IH by exact Hu.
    now rewrite append_assoc.
Qed.

Lemma split_scan_word u s :
  is_word u = true ->
  Py.split_scan (u ++ " " ++ s) None = u :: Py.split_scan s None.
Proof.
  intros Hu. destruct u as [|c u]; [discriminate|].
  simpl in Hu. apply andb_true_iff in Hu as [Hc Hu].
  apply negb_true_iff in Hc.
  cbn [append Py.split_scan]. rewrite Hc.
  rewrite split_scan_word_prefix by exact Hu. reflexivity.
Qed.

(** Words followed by a space each, put together and split again. *)
Lemma split_join ws :
  forallb is_word ws = true ->
  Py.split (join (List.map (fun w => (w ++ " ")%string) ws)) = ws.
Proof.
  unfold Py.split. induction ws as [|w ws IH]; intros H; [reflexivity|].
  simpl in H. apply andb_true_iff in H as [Hw Hws].
  cbn [List.map join]. rewrite append_assoc, split_scan_word by exact Hw.
  now rewrite IH.
Qed.

Lemma llm_emits_contents words ws : forall i c,
  List.map LLMStreamChunk.content
    (llm_chunks (emits (llm_emit words) llm_next (Py.enumerate_from i ws) c))
  = List.map (fun w => (w ++ " ")%string) ws.
Proof. induction ws as [|x ws IH]; intros i c; simpl; auto. now rewrite IH. Qed.

(** X9.  The contents of the chunks of a run of the text-generation
    stream, against any client, are the first words of the response text,
    each followed by one space; put one after the other and split again,
    they give back those words: the [k] chunks a client received are exactly
    the first [k] words. *)
Theorem chunk_contents_roundtrip env prompt sv :
  let words := Py.split (full_response prompt) in
  let evs := events (simulate_llm_streaming prompt) env (start sv) in
  let contents := List.map LLMStreamChunk.content (llm_chunks evs) in
  let k := count_event "llm_chunk" evs in
  contents = List.map (fun w => (w ++ " ")%string) (firstn k words)
  /\ Py.split (join contents) = firstn k words
  /\ (k <= List.length words)%nat.
Proof.
  intros words evs contents k. subst contents k evs. unfold events.
  rewrite simulate_llm_streaming_run. cbv zeta. cbn [start polls sleeps fst].
  fold words.
  pose proof (fate_emitted_le env (List.length words) 0 0) as Hle.
  destruct (fate env 0 0 (List.length words)) as [n p st].
  cbn [emitted stopped] in *.
  assert (Hk : count_event "llm_chunk"
                 (emits (llm_emit words) llm_next (Py.enumerate (firstn n words)) 0
                    ++ match st with
                       | Completed => [llm_complete (Z.of_nat n)]
                       | Disconnected => [llm_complete (Z.of_nat n)]
                       | _ => []
                       end) = n).
  { rewrite count_event_app, count_event_llm_emits, firstn_length_le by lia.
    destruct st; cbn; lia. }
  rewrite Hk, llm_chunks_app, List.map_app. unfold Py.enumerate.
  rewrite llm_emits_contents.
  replace (List.map LLMStreamChunk.content
             (llm_chunks
                match st with
                | Completed => [llm_complete (Z.of_nat n)]
                | Disconnected => [llm_complete (Z.of_nat n)]
                | _ => []
                end)) with (@nil string) by (destruct st; reflexivity).
  rewrite app_nil_r. repeat split.
  - apply split_join, forallb_firstn. apply split_words.
  - exact Hle.
Qed.

Lemma nth_error_enumerate_from {A : Type} (xs : list A) : forall i a,
  nth_error (Py.enumerate_from a xs) i
  = option_map (fun x => (a + Z.of_nat i, x)) (nth_error xs i).
Proof.
  induction xs as [|x xs IH]; intros i a; destruct i as [|i];
    simpl Py.enumerate_from; simpl nth_error; auto.
  - simpl. now rewrite Z.add_0_r.
  - rewrite IH. destruct (nth_error xs i); simpl; auto.
    do 2 f_equal. lia.
Qed.

Lemma response_text_words message :
  List.length (Py.split (response_text message))
  = (4 + whitespace_runs (ChatMessage.message message))%nat.
Proof.
  unfold response_text. rewrite split_length, !word_starts_app.
  change (word_starts true "Processing your message: '") with 4%nat.
  change (ends_space true "Processing your message: '") with false.
  pose proof (word_starts_space_runs (ChatMessage.message message) false) as H.
  unfold whitespace_runs.
  destruct (ends_space false (ChatMessage.message message)).
  - change (word_starts true "'") with 1%nat. lia.
  - change (word_starts false "'") with 0%nat. lia.
Qed.

(** X10.  The POST stream for any message and user id made of code
    points below U+0100 (which [encode] cannot refuse), with a client that
    never disconnects: one chunk line for each word of the acknowledgement, four
    of them plus one for each run of whitespace in the message, the line of
    word number [i] (from 0) carrying index [i], and after them the
    completion line, which is the last. *)
Theorem post_stream_lines env message sv :
  never_disconnected env -> sleeps_return env ->
  let words := Py.split (response_text message) in
  let evs := events (generate_response message) env (start sv) in
  List.length words = (4 + whitespace_runs (ChatMessage.message message))%nat
  /\ List.length evs = S (List.length words)
  /\ (forall i word, nth_error words i = Some word ->
        nth_error evs i
        = Some (Py.encode (post_chunk word (Z.of_nat i)
                             (ChatMessage.user_id message))))
  /\ nth_error evs (List.length words) = Some (Py.encode post_final_chunk).
Proof.
  intros Hc Hs words evs. subst evs. unfold events.
  rewrite generate_response_run. cbv zeta. fold words.
  rewrite (fate_undisturbed env _ Hc Hs). cbn [fst emitted stopped].
  rewrite List.firstn_all.
  assert (Hlen : List.length (List.map (post_line message) (Py.enumerate words))
                 = List.length words).
  { unfold Py.enumerate. now rewrite List.length_map, enumerate_from_length. }
  split; [apply response_text_words|]. split; [|split].
  - rewrite List.length_app, Hlen. simpl. lia.
  - intros i word Hi.
    rewrite nth_error_app1
      by (rewrite Hlen; apply nth_error_Some; rewrite Hi; discriminate).
    unfold Py.enumerate.
    rewrite nth_error_map, nth_error_enumerate_from, Hi. reflexivity.
  - rewrite nth_error_app2 by (rewrite Hlen; lia).
    rewrite Hlen, Nat.sub_diag. reflexivity.
Qed.

Lemma post_stream_lines_witness :
  never_disconnected (patient_client 0) /\ sleeps_return (patient_client 0)
  /\ List.length
       (events (generate_response (ChatMessage.make "a b  c" ChatMessage.Null))
          (patient_client 0) (start streaming_service))
     = S (List.length
            (Py.split
               (response_text (ChatMessage.make "a b  c" ChatMessage.Null)))).
Proof.
  split; [intros k; reflexivity|]. split; [intros k; reflexivity|].
  apply (post_stream_lines (patient_client 0)
           (ChatMessage.make "a b  c" ChatMessage.Null) streaming_service);
    intros k; reflexivity.
Defined.

(* ================================================================== *)
(** ** Every run of a stream *)
(* ================================================================== *)

(** X11.  The event names of any run, against any client: the counter
    stream is at most ten ["message"] events, followed by ["complete"] only
    after the tenth; the text-generation stream is at most one
    ["llm_chunk"] per word, followed by at most one ["llm_complete"]; the
    progress stream is the ["progress"] events of steps 0, 1, ... in order,
    at most 21.  A terminal event is always the last one. *)
Theorem stream_grammar env fuel prompt task_name sv :
  (10 <= fuel)%nat ->
  (exists n, (n <= 10)%nat
     /\ (List.map SSE.event (events (stream_events fuel) env (start sv))
         = repeat "message" n
         \/ (n = 10%nat
             /\ List.map SSE.event (events (stream_events fuel) env (start sv))
                = repeat "message" 10 ++ ["complete"])))
  /\ (exists n, (n <= List.length (Py.split (full_response prompt)))%nat
        /\ (List.map SSE.event
              (events (simulate_llm_streaming prompt) env (start sv))
            = repeat "llm_chunk" n
            \/ List.map SSE.event
                 (events (simulate_llm_streaming prompt) env (start sv))
               = repeat "llm_chunk" n ++ ["llm_complete"]))
  /\ (exists n, (n <= 21)%nat
        /\ List.map SSE.event
             (events (simulate_progress_task task_name) env (start sv))
           = repeat "progress" n
        /\ List.map SSE.id
             (events (simulate_progress_task task_name) env (start sv))
           = List.map Py.str (Zseq 0 n)).
Proof.
  intros Hfuel. unfold events.
  rewrite (stream_events_run env fuel (start sv) Hfuel).
  rewrite simulate_llm_streaming_run, simulate_progress_task_run.
  cbv zeta. cbn [start polls sleeps now_reads time_reads fst].
  split; [|split].
  - pose proof (fate_emitted_le env 10 0 0) as Hle.
    pose proof (fate_completed env 10 0 0) as Hall.
    destruct (fate env 0 0 10) as [n p st]. cbn [emitted stopped] in *.
    exists n. split; [exact Hle|].
    rewrite List.map_app, stream_messages_events.
    destruct st; cbn [List.map]; rewrite ?app_nil_r; auto.
    right. rewrite (Hall eq_refl). split; reflexivity.
  - set (words := Py.split (full_response prompt)).
    pose proof (fate_emitted_le env (List.length words) 0 0) as Hle.
    destruct (fate env 0 0 (List.length words)) as [n p st].
    cbn [emitted stopped] in *.
    exists n. split; [exact Hle|].
    unfold Py.enumerate.
    rewrite List.map_app, llm_emits_events, firstn_length_le by exact Hle.
    destruct st; cbn [List.map]; rewrite ?app_nil_r; auto.
  - pose proof (fate_emitted_le env 21 0 0) as Hle.
    destruct (fate env 0 0 21) as [n p st]. cbn [emitted] in *.
    exists n. split; [exact Hle|].
    rewrite range_firstn by exact Hle.
    rewrite progress_events_names, progress_events_ids, Zseq_length.
    split; reflexivity.
Qed.

Lemma stream_grammar_witness :
  (10 <= 10)%nat
  /\ exists n, (n <= 21)%nat
       /\ List.map SSE.event
            (events (simulate_progress_task "backup")
               (interrupted_client 6 (Exception "broken pipe"))
               (start streaming_service))
          = repeat "progress" n
       /\ List.map SSE.id
            (events (simulate_progress_task "backup")
               (interrupted_client 6 (Exception "broken pipe"))
               (start streaming_service))
          = List.map Py.str (Zseq 0 n).
Proof.
  split; [lia|].
  apply (stream_grammar (interrupted_client 6 (Exception "broken pipe")) 10
           "hi" "backup" streaming_service). lia.
Defined.

